(** * opengist: the git-backed content engine of [internal/models/gist.go]

    A shallow embedding of the Go methods of [Gist] that read and write a
    gist's repository through the [internal/git] package, together with the
    properties the design document states about them.

    Conventions of the embedding.
    - A Go [string] is a byte string: [String.string].
    - A Go [error] is [option error], [None] being the nil error.
    - A Go pointer to a [File] is [option File], [None] being the nil pointer.
    - A Go slice of such pointers is a [list]; the nil slice is [[]].  The methods
      below never build an empty non-nil slice, so the two are not confused.
    - The calls into [internal/git] run subprocesses against the disk;
      they are state transformers on a world, and the methods thread the
      world through them in program order. *)

From Stdlib Require Import ZArith Ascii String DecimalString.
From stdpp Require Import base option list strings gmap fin_maps pretty.

Open Scope string_scope.
Open Scope list_scope.

(** ** Errors *)

(** The two shapes of error that [gist.go] tells apart with the type
    assertion of [err] to [exec.ExitError]: a subprocess that ran and exited with
    a status, and any other error value. *)
Inductive error : Type :=
| ExitError (ExitCode : Z)
| OtherError (msg : string).

#[global] Instance error_eq_dec : EqDecision error.
Proof. solve_decision. Defined.

(** The test [ok && exiterr.ExitCode() == 128] that follows the type
    assertion of [err] to [exec.ExitError].  On a nil [err] the assertion
    yields [ok = false]. *)
Definition exits_128 (err : option error) : bool :=
  match err with
  | Some (ExitError code) => Z.eqb code 128
  | Some (OtherError _) => false
  | None => false
  end.

(** ** Data model *)

Record File : Type := mkFile {
  Filename : string;
  OldFilename : string;
  Content : string;
  Truncated : bool
}.

#[global] Instance File_eq_dec : EqDecision File.
Proof. solve_decision. Defined.

Record Commit : Type := mkCommit {
  Hash : string;
  Author : string;
  Timestamp : string;
  Changed : string;
  Files : list File
}.

Record User : Type := mkUser { Username : string }.

(** The fields of [Gist] that the repository methods read; the remaining
    ones are metadata columns of the relational store. *)
Record Gist : Type := mkGist {
  Uuid : string;
  Title : string;
  Description : string;
  Private : bool;
  GistUser : User
}.

(** ** The [internal/git] package, as [gist.go] sees it *)

(** One field per function of the package that [gist.go] calls, with the Go
    signature turned into a state transformer on the world. *)
Record GitPackage : Type := mkGitPackage {
  World : Type;
  LogOutput : Type;
  git_InitRepository : string -> string -> World -> option error * World;
  git_GetFilesOfRepository :
    string -> string -> string -> World -> (list string * option error) * World;
  git_GetFileContent :
    string -> string -> string -> string -> bool -> World ->
    (string * bool * option error) * World;
  git_GetLog : string -> string -> string -> World -> (LogOutput * option error) * World;
  git_GetNumberOfCommitsOfRepository :
    string -> string -> World -> (string * option error) * World;
  git_CloneTmp : string -> string -> string -> World -> option error * World;
  git_SetFileContent : string -> string -> string -> World -> option error * World;
  git_AddAll : string -> World -> option error * World;
  git_Commit : string -> World -> option error * World;
  git_Push : string -> World -> option error * World
}.

(** ** The methods of [Gist] *)

Section Methods.
Context (G : GitPackage).

(** [Gist.InitRepository() error] *)
Definition Gist_InitRepository (gist : Gist) (w : World G) : option error * World G :=
  git_InitRepository G (Username (GistUser gist)) (Uuid gist) w.

(** [Gist.File(revision, filename string, truncate bool)], returning a
    [File] pointer and an [error]. *)
Definition Gist_File (gist : Gist) (revision filename : string) (truncate : bool)
    (w : World G) : (option File * option error) * World G :=
  let '((content, truncated, err), w1) :=
    git_GetFileContent G (Username (GistUser gist)) (Uuid gist) revision filename truncate w in
  if exits_128 err then ((None, None), w1)
  else ((Some {| Filename := filename; OldFilename := "";
                 Content := content; Truncated := truncated |}, err), w1).

(** The [for _, fileStr := range filesStr] loop of [Files]; [files] is the
    slice accumulated so far. *)
Fixpoint Files_range (gist : Gist) (revision : string) (filesStr : list string)
    (files : list (option File)) (w : World G)
    : (list (option File) * option error) * World G :=
  match filesStr with
  | [] => ((files, None), w)
  | fileStr :: rest =>
      let '((file, err), w1) := Gist_File gist revision fileStr true w in
      match err with
      | Some e => (([], Some e), w1)
      | None => Files_range gist revision rest (files ++ [file]) w1
      end
  end.

(** [Gist.Files(revision string)], returning a slice of [File] pointers
    and an [error]. *)
Definition Gist_Files (gist : Gist) (revision : string) (w : World G)
    : (list (option File) * option error) * World G :=
  let '((filesStr, err), w1) :=
    git_GetFilesOfRepository G (Username (GistUser gist)) (Uuid gist) revision w in
  match err with
  | Some e =>
      if exits_128 err then (([], None), w1) else (([], Some e), w1)
  | None => Files_range gist revision filesStr [] w1
  end.

(** [Gist.Log(skip string) error] *)
Definition Gist_Log (gist : Gist) (skip : string) (w : World G) : option error * World G :=
  let '((_, err), w1) := git_GetLog G (Username (GistUser gist)) (Uuid gist) skip w in
  (err, w1).

(** [Gist.NbCommits() (string, error)] *)
Definition Gist_NbCommits (gist : Gist) (w : World G) : (string * option error) * World G :=
  git_GetNumberOfCommitsOfRepository G (Username (GistUser gist)) (Uuid gist) w.

(** The [for _, file := range] loop of [AddAndCommitFiles]. *)
Fixpoint SetFiles_range (gist : Gist) (files : list File) (w : World G)
    : option error * World G :=
  match files with
  | [] => (None, w)
  | file :: rest =>
      match git_SetFileContent G (Uuid gist) (Filename file) (Content file) w with
      | (Some e, w1) => (Some e, w1)
      | (None, w1) => SetFiles_range gist rest w1
      end
  end.

(** [Gist.AddAndCommitFiles(files) error] *)
Definition Gist_AddAndCommitFiles (gist : Gist) (files : list File) (w : World G)
    : option error * World G :=
  match git_CloneTmp G (Username (GistUser gist)) (Uuid gist) (Uuid gist) w with
  | (Some e, w1) => (Some e, w1)
  | (None, w1) =>
      match SetFiles_range gist files w1 with
      | (Some e, w2) => (Some e, w2)
      | (None, w2) =>
          match git_AddAll G (Uuid gist) w2 with
          | (Some e, w3) => (Some e, w3)
          | (None, w3) =>
              match git_Commit G (Uuid gist) w3 with
              | (Some e, w4) => (Some e, w4)
              | (None, w4) => git_Push G (Uuid gist) w4
              end
          end
      end
  end.

End Methods.

Arguments Gist_InitRepository G gist w : simpl never.
Arguments Gist_AddAndCommitFiles G gist files w : simpl never.

(** ** The calls an edit transaction makes *)

(** The five functions of [internal/git] that [AddAndCommitFiles] calls, with
    their arguments. *)
Inductive GitCall : Type :=
| CallCloneTmp (user gist gistTmpId : string)
| CallSetFileContent (gistTmpId filename content : string)
| CallAddAll (gistTmpId : string)
| CallCommit (gistTmpId : string)
| CallPush (gistTmpId : string).

#[global] Instance GitCall_eq_dec : EqDecision GitCall.
Proof. solve_decision. Defined.


(** The steps that work inside the clone keyed by [gistTmpId]: the writes,
    the staging and the commit. *)
Definition works_in_clone (gistTmpId : string) (c : GitCall) : bool :=
  match c with
  | CallSetFileContent id _ _ | CallAddAll id | CallCommit id => bool_decide (id = gistTmpId)
  | CallCloneTmp _ _ _ | CallPush _ => false
  end.

Definition exec_call (G : GitPackage) (c : GitCall) (w : World G) : option error * World G :=
  match c with
  | CallCloneTmp user gist gistTmpId => git_CloneTmp G user gist gistTmpId w
  | CallSetFileContent gistTmpId filename content =>
      git_SetFileContent G gistTmpId filename content w
  | CallAddAll gistTmpId => git_AddAll G gistTmpId w
  | CallCommit gistTmpId => git_Commit G gistTmpId w
  | CallPush gistTmpId => git_Push G gistTmpId w
  end.

(** Calls made one after the other, up to and including the first that
    returns an error. *)
Fixpoint exec_calls (G : GitPackage) (cs : list GitCall) (w : World G)
    : option error * World G :=
  match cs with
  | [] => (None, w)
  | c :: rest =>
      match exec_call G c w with
      | (Some e, w1) => (Some e, w1)
      | (None, w1) => exec_calls G rest w1
      end
  end.

(** The calls of [cs] that [exec_calls] makes: those up to and including
    the first that returns an error. *)
Fixpoint executed (G : GitPackage) (cs : list GitCall) (w : World G) : list GitCall :=
  match cs with
  | [] => []
  | c :: rest =>
      c :: match exec_call G c w with
           | (Some _, _) => []
           | (None, w1) => executed G rest w1
           end
  end.

(** The same package with a journal: every call of the five functions above
    is appended to the journal when it is made, whatever it returns.  The
    methods are not changed; they are run against this package to observe
    which calls they make and in which order. *)
Definition journalled {G : GitPackage} {A : Type} (c : GitCall)
    (run : World G -> A * World G) (wj : World G * list GitCall)
    : A * (World G * list GitCall) :=
  let '(a, w1) := run wj.1 in (a, (w1, wj.2 ++ [c])).

Definition unjournalled {G : GitPackage} {A : Type}
    (run : World G -> A * World G) (wj : World G * list GitCall)
    : A * (World G * list GitCall) :=
  let '(a, w1) := run wj.1 in (a, (w1, wj.2)).

Definition Journal (G : GitPackage) : GitPackage := {|
  World := World G * list GitCall;
  LogOutput := LogOutput G;
  git_InitRepository user gist := unjournalled (git_InitRepository G user gist);
  git_GetFilesOfRepository user gist revision :=
    unjournalled (git_GetFilesOfRepository G user gist revision);
  git_GetFileContent user gist revision filename truncate :=
    unjournalled (git_GetFileContent G user gist revision filename truncate);
  git_GetLog user gist skip := unjournalled (git_GetLog G user gist skip);
  git_GetNumberOfCommitsOfRepository user gist :=
    unjournalled (git_GetNumberOfCommitsOfRepository G user gist);
  git_CloneTmp user gist gistTmpId :=
    journalled (CallCloneTmp user gist gistTmpId) (git_CloneTmp G user gist gistTmpId);
  git_SetFileContent gistTmpId filename content :=
    journalled (CallSetFileContent gistTmpId filename content)
               (git_SetFileContent G gistTmpId filename content);
  git_AddAll gistTmpId := journalled (CallAddAll gistTmpId) (git_AddAll G gistTmpId);
  git_Commit gistTmpId := journalled (CallCommit gistTmpId) (git_Commit G gistTmpId);
  git_Push gistTmpId := journalled (CallPush gistTmpId) (git_Push G gistTmpId)
|}.

(** The steps of one edit transaction, in the order of the design's state
    machine: clone, one write per supplied file, one staging, one commit,
    one push. *)
Definition write_calls (gist : Gist) (files : list File) : list GitCall :=
  (fun file => CallSetFileContent (Uuid gist) (Filename file) (Content file)) <$> files.

Definition transaction_steps (gist : Gist) (files : list File) : list GitCall :=
  CallCloneTmp (Username (GistUser gist)) (Uuid gist) (Uuid gist)
  :: write_calls gist files
  ++ [CallAddAll (Uuid gist); CallCommit (Uuid gist); CallPush (Uuid gist)].

(** ** A model of the [internal/git] package *)

(** The source of [internal/git] is not part of the verified file.  The
    model below follows the design document: canonical bare repositories
    keyed by (owner, gist id), temporary working clones keyed by a session
    id, reads that answer git's exit status 128 when the revision, the file
    or the repository cannot be resolved, and writes that go through a
    clone and reach the canonical repository by a push. *)
Module GitModel.

(** Modelled from the spec: a revision of a repository, which
    [internal/git] leaves to the git toolchain; here a commit is its hash
    and the tree (file name to content) it records. *)
Record Revision : Type := mkRevision {
  rev_hash : string;
  rev_tree : gmap string string
}.

#[global] Instance Revision_eq_dec : EqDecision Revision.
Proof. solve_decision. Defined.

(** Modelled from the spec: the temporary working clone of
    [internal/git]: where it was cloned from, the history it was cloned
    at, its working tree, its index, and its own history. *)
Record Clone : Type := mkClone {
  origin : string * string;
  base : list Revision;
  worktree : gmap string string;
  index : gmap string string;
  local : list Revision
}.

(** The mutating steps, which the design lets fail with an [IOFailure]. *)
Inductive Step : Type :=
| StepInit | StepClone | StepWrite | StepStage | StepCommit | StepPush.

(** Modelled from the spec: the disk [internal/git] works on: the
    canonical repositories (history newest first), the temporary clones,
    and the I/O failure, if any, that the environment inflicts on each
    mutating step. *)
Record Disk : Type := mkDisk {
  repositories : gmap (string * string) (list Revision);
  tmp : gmap string Clone;
  io_failure : Step -> option error
}.

Definition with_repositories (d : Disk) (r : gmap (string * string) (list Revision)) : Disk :=
  {| repositories := r; tmp := tmp d; io_failure := io_failure d |}.

Definition with_tmp (d : Disk) (t : gmap string Clone) : Disk :=
  {| repositories := repositories d; tmp := t; io_failure := io_failure d |}.

(** Git's exit status for a revision or path it cannot resolve. *)
Definition bad_revision : error := ExitError 128.

(** Push rejected because the canonical history moved (not a fast-forward). *)
Definition conflict : error := ExitError 1.

Definition no_such_clone : error := OtherError "no such working clone".
Definition already_exists : error := OtherError "AlreadyExists".

(** Modelled from the spec: resolution of a revision identifier, done by
    the git toolchain: the symbolic [HEAD] is the newest commit, any other
    identifier is looked up as a commit hash. *)
Definition resolve (history : list Revision) (revision : string) : option Revision :=
  if decide (revision = "HEAD") then head history
  else snd <$> list_find (fun r => rev_hash r = revision) history.

Definition head_tree (history : list Revision) : gmap string string :=
  match head history with
  | Some r => rev_tree r
  | None => ∅
  end.

(** Modelled from the spec: [git.InitRepository], absent from the
    sources: creates an empty bare repository, fails if the place is
    taken. *)
Definition InitRepository (user gist : string) (d : Disk) : option error * Disk :=
  match io_failure d StepInit with
  | Some e => (Some e, d)
  | None =>
      match repositories d !! (user, gist) with
      | Some _ => (Some already_exists, d)
      | None => (None, with_repositories d (<[(user, gist) := []]> (repositories d)))
      end
  end.

(** Modelled from the spec: [git.GetFilesOfRepository], absent from the
    sources: the file names of the tree at [revision]; exit status 128
    when the tree cannot be resolved. *)
Definition GetFilesOfRepository (user gist revision : string) (d : Disk)
    : (list string * option error) * Disk :=
  match repositories d !! (user, gist) ≫= (fun h => resolve h revision) with
  | Some r => (((map_to_list (rev_tree r)).*1, None), d)
  | None => (([], Some bad_revision), d)
  end.

(** Modelled from the spec: the blob stored for [filename] at [revision]. *)
Definition blob (user gist revision filename : string) (d : Disk) : option string :=
  r ← repositories d !! (user, gist) ≫= (fun h => resolve h revision);
  rev_tree r !! filename.

Section Cap.
(** The read-size cap, in bytes: a configuration constant. *)
Context (cap : nat).

(** Modelled from the spec: [git.GetFileContent], absent from the
    sources: when truncation is requested and the content exceeds the
    cap, the first [cap] bytes and [truncated = true]; otherwise the
    whole content; exit status 128 when the revision or the file does
    not exist. *)
Definition GetFileContent (user gist revision filename : string) (truncate : bool)
    (d : Disk) : (string * bool * option error) * Disk :=
  match blob user gist revision filename d with
  | Some content =>
      if truncate && (cap <? String.length content)%nat
      then ((String.substring 0 cap content, true, None), d)
      else ((content, false, None), d)
  | None => (("", false, Some bad_revision), d)
  end.
End Cap.

(** Modelled from the spec: [git.GetLog], absent from the sources: the
    hashes of the commits starting [skip] commits back from HEAD, [skip]
    being a decimal number as text. *)
Definition GetLog (user gist skip : string) (d : Disk)
    : (list string * option error) * Disk :=
  match repositories d !! (user, gist) with
  | Some (r :: history) =>
      match NilZero.uint_of_string skip with
      | Some n => ((rev_hash <$> drop (Nat.of_uint n) (r :: history), None), d)
      | None => (([], Some (ExitError 129)), d)
      end
  | Some [] | None => (([], Some bad_revision), d)
  end.

(** Modelled from the spec: [git.GetNumberOfCommitsOfRepository], absent
    from the sources: the number of commits reachable from HEAD, as
    text. *)
Definition GetNumberOfCommitsOfRepository (user gist : string) (d : Disk)
    : (string * option error) * Disk :=
  match repositories d !! (user, gist) with
  | Some (r :: history) => ((pretty (length (r :: history)), None), d)
  | Some [] | None => (("", Some bad_revision), d)
  end.

(** Modelled from the spec: [git.CloneTmp], absent from the sources:
    clones the canonical repository into the working clone keyed by
    [gistTmpId]. *)
Definition CloneTmp (user gist gistTmpId : string) (d : Disk) : option error * Disk :=
  match io_failure d StepClone with
  | Some e => (Some e, d)
  | None =>
      match repositories d !! (user, gist) with
      | None => (Some bad_revision, d)
      | Some history =>
          (None, with_tmp d (<[gistTmpId :=
             {| origin := (user, gist); base := history;
                worktree := head_tree history; index := head_tree history;
                local := history |}]> (tmp d)))
      end
  end.

(** A step inside the working clone keyed by [gistTmpId]. *)
Definition in_clone (step : Step) (gistTmpId : string) (f : Clone -> Clone) (d : Disk)
    : option error * Disk :=
  match io_failure d step with
  | Some e => (Some e, d)
  | None =>
      match tmp d !! gistTmpId with
      | None => (Some no_such_clone, d)
      | Some c => (None, with_tmp d (<[gistTmpId := f c]> (tmp d)))
      end
  end.

(** Modelled from the spec: [git.SetFileContent], absent from the
    sources: writes [content] to [filename] in the working tree. *)
Definition SetFileContent (gistTmpId filename content : string) : Disk -> option error * Disk :=
  in_clone StepWrite gistTmpId (fun c =>
    {| origin := origin c; base := base c;
       worktree := <[filename := content]> (worktree c);
       index := index c; local := local c |}).

(** Modelled from the spec: [git.AddAll], absent from the sources: stages
    every change of the working tree in one operation. *)
Definition AddAll (gistTmpId : string) : Disk -> option error * Disk :=
  in_clone StepStage gistTmpId (fun c =>
    {| origin := origin c; base := base c; worktree := worktree c;
       index := worktree c; local := local c |}).

(** Modelled from the spec: [git.Commit], absent from the sources: one
    commit of everything staged, on top of the clone's history. *)
Definition Commit (gistTmpId : string) : Disk -> option error * Disk :=
  in_clone StepCommit gistTmpId (fun c =>
    {| origin := origin c; base := base c; worktree := worktree c;
       index := index c;
       local := {| rev_hash := pretty (length (local c)); rev_tree := index c |}
                :: local c |}).

(** Modelled from the spec: [git.Push], absent from the sources: pushes
    the clone's history to the canonical repository; rejected as a
    conflict when the canonical history is no longer the one cloned. *)
Definition Push (gistTmpId : string) (d : Disk) : option error * Disk :=
  match io_failure d StepPush with
  | Some e => (Some e, d)
  | None =>
      match tmp d !! gistTmpId with
      | None => (Some no_such_clone, d)
      | Some c =>
          match repositories d !! origin c with
          | None => (Some bad_revision, d)
          | Some history =>
              if decide (history = base c)
              then (None, with_repositories d (<[origin c := local c]> (repositories d)))
              else (Some conflict, d)
          end
      end
  end.


(** The package [gist.go] imports, over the model, for a read-size cap. *)
Definition package (cap : nat) : GitPackage := {|
  World := Disk;
  LogOutput := list string;
  git_InitRepository := InitRepository;
  git_GetFilesOfRepository := GetFilesOfRepository;
  git_GetFileContent := GetFileContent cap;
  git_GetLog := GetLog;
  git_GetNumberOfCommitsOfRepository := GetNumberOfCommitsOfRepository;
  git_CloneTmp := CloneTmp;
  git_SetFileContent := SetFileContent;
  git_AddAll := AddAll;
  git_Commit := Commit;
  git_Push := Push
|}.

(** A disk with nothing on it and no failing step. *)
Definition empty_disk : Disk :=
  {| repositories := ∅; tmp := ∅; io_failure := fun _ => None |}.


(** The session ids that have a temporary clone directory on the disk. *)
Definition tmp_clones (d : Disk) : gset string := dom (tmp d).

End GitModel.

(** A test double of the package: the blob read answers a scripted result,
    every other call succeeds and does nothing. *)
Definition scripted (answer : string * bool * option error) : GitPackage := {|
  World := unit;
  LogOutput := unit;
  git_InitRepository _ _ w := (None, w);
  git_GetFilesOfRepository _ _ _ w := (([], None), w);
  git_GetFileContent _ _ _ _ _ w := (answer, w);
  git_GetLog _ _ _ w := ((tt, None), w);
  git_GetNumberOfCommitsOfRepository _ _ w := (("0", None), w);
  git_CloneTmp _ _ _ w := (None, w);
  git_SetFileContent _ _ _ w := (None, w);
  git_AddAll _ w := (None, w);
  git_Commit _ w := (None, w);
  git_Push _ w := (None, w)
|}.

(** ** Validation of a [File] *)

(** The number of runes of a Go string, as [utf8.RuneCountInString] counts
    them: an ill-formed or truncated sequence counts one rune per byte. *)
Module utf8.

Definition RuneSelf : N := 0x80.
Definition locb : N := 0x80.
Definition hicb : N := 0xBF.

(** The table [first] joined with [acceptRanges]: for a leading byte, the
    length of its sequence and the range its second byte must lie in;
    [None] for a byte that cannot lead a sequence. *)
Definition first (c : N) : option (nat * N * N) :=
  if (c <? 0xC2)%N then None
  else if (c <=? 0xDF)%N then Some (2, locb, hicb)
  else if (c =? 0xE0)%N then Some (3, 0xA0%N, hicb)
  else if (c <=? 0xEC)%N then Some (3, locb, hicb)
  else if (c =? 0xED)%N then Some (3, locb, 0x9F%N)
  else if (c <=? 0xEF)%N then Some (3, locb, hicb)
  else if (c =? 0xF0)%N then Some (4, 0x90%N, hicb)
  else if (c <=? 0xF3)%N then Some (4, locb, hicb)
  else if (c =? 0xF4)%N then Some (4, locb, 0x8F%N)
  else None.

Definition continuation (c : N) : bool := (locb <=? c)%N && (c <=? hicb)%N.

(** The number of bytes the loop advances by at a byte [c] followed by
    [rest]. *)
Definition width (c : N) (rest : list N) : nat :=
  if (c <? RuneSelf)%N then 1
  else match first c with
       | None => 1
       | Some (size, lo, hi) =>
           if (length rest <? size - 1)%nat then 1
           else match rest with
                | [] => 1
                | c1 :: rest1 =>
                    if (c1 <? lo)%N || (hi <? c1)%N then 1
                    else if (size =? 2)%nat then 2
                    else match rest1 with
                         | [] => 1
                         | c2 :: rest2 =>
                             if negb (continuation c2) then 1
                             else if (size =? 3)%nat then 3
                             else match rest2 with
                                  | [] => 1
                                  | c3 :: _ => if negb (continuation c3) then 1 else 4
                                  end
                         end
                end
       end.

(** The counting loop; [skip] is the number of bytes still to pass over
    before the next rune starts. *)
Fixpoint count (skip : nat) (bs : list N) : nat :=
  match bs with
  | [] => 0
  | c :: rest =>
      match skip with
      | S k => count k rest
      | O => S (count (width c rest - 1) rest)
      end
  end.

Definition bytes (s : string) : list N :=
  Ascii.N_of_ascii <$> String.list_ascii_of_string s.

Definition RuneCountInString (s : string) : nat := count 0 (bytes s).

End utf8.

(** The three validators that the struct tags of [File] name, as the
    validator package applies them to a string field. *)
Module validate.

(** [strings.Contains(s, substr)] *)
Definition Contains (s substr : string) : bool :=
  match String.index 0 substr s with
  | Some _ => true
  | None => false
  end.

Definition excludes (param field : string) : bool := negb (Contains field param).

Definition max (param : nat) (field : string) : bool :=
  (utf8.RuneCountInString field <=? param)%nat.

Definition required (field : string) : bool := negb (String.eqb field "").

End validate.

(** The tags of [File]: [excludes=\x2f,excludes=\x5c,max=50] on [Filename]
    and on [OldFilename], [required] on [Content]; the escapes stand for
    the slash and the backslash. *)
Definition File_valid (f : File) : bool :=
  validate.excludes "/" (Filename f) && validate.excludes "\" (Filename f)
  && validate.max 50 (Filename f)
  && validate.excludes "/" (OldFilename f) && validate.excludes "\" (OldFilename f)
  && validate.max 50 (OldFilename f)
  && validate.required (Content f).

(** ** Paths inside the working tree *)

(** A directory is the list of its components from the root.  A name is
    joined to it lexically, as [filepath.Join] does on a system whose
    separator is the slash. *)
Module filepath.

(** [strings.Split(s, "/")] *)
Fixpoint Split (s : string) : list string :=
  match s with
  | EmptyString => [""]
  | String c rest =>
      if decide (c = "/"%char) then "" :: Split rest
      else match Split rest with
           | [] => [String c ""]
           | component :: components => String c component :: components
           end
  end.

Definition enter (dir : list string) (component : string) : list string :=
  if decide (component = "" ∨ component = ".") then dir
  else if decide (component = "..") then removelast dir
  else dir ++ [component].

Definition Join (dir : list string) (name : string) : list string :=
  fold_left enter (Split name) dir.

End filepath.

(** Modelled from the spec: the path that the write step of the
    Working-Copy Writer gives a file entry ([git.SetFileContent] is absent
    from the sources): the entry's file name joined to the directory of the
    working tree. *)
Definition entry_path (worktree_dir : list string) (filename : string) : list string :=
  filepath.Join worktree_dir filename.

(** A path lies inside the working tree when the tree's directory is a
    prefix of it, and at its top level when at most one component follows. *)
Definition inside_top_level (worktree_dir path : list string) : Prop :=
  worktree_dir `prefix_of` path ∧ (length path ≤ S (length worktree_dir))%nat.

(** ** Sample data *)

Module Sample.
Import GitModel.

Definition alice_gist : Gist :=
  {| Uuid := "g1"; Title := "notes"; Description := ""; Private := false;
     GistUser := {| Username := "alice" |} |}.

(** The package with a read-size cap of four bytes. *)
Definition git : GitPackage := package 4.

(** Alice's repository right after [init]: no commit. *)
Definition fresh_disk : Disk :=
  {| repositories := {[ ("alice", "g1") := [] ]}; tmp := ∅;
     io_failure := fun _ => None |}.

Definition first_commit : Revision :=
  {| rev_hash := "0"; rev_tree := {[ "old.txt" := "hello world" ]} |}.

Definition second_commit : Revision :=
  {| rev_hash := "1"; rev_tree := {[ "old.txt" := "hello again" ]} |}.

(** Alice's repository with one commit, then with two. *)
Definition one_commit_disk : Disk :=
  {| repositories := {[ ("alice", "g1") := [first_commit] ]}; tmp := ∅;
     io_failure := fun _ => None |}.

Definition two_commits_disk : Disk :=
  {| repositories := {[ ("alice", "g1") := [second_commit; first_commit] ]}; tmp := ∅;
     io_failure := fun _ => None |}.

(** The same one-commit repository on a disk where staging fails. *)
Definition staging_fails_disk : Disk :=
  {| repositories := {[ ("alice", "g1") := [first_commit] ]}; tmp := ∅;
     io_failure := fun step =>
       match step with
       | StepStage => Some (OtherError "no space left on device")
       | _ => None
       end |}.

Definition new_file : File :=
  {| Filename := "new.txt"; OldFilename := ""; Content := "fresh"; Truncated := false |}.

(** An entry that asks for [old.txt] to become [new.txt]. *)
Definition renaming_file : File :=
  {| Filename := "new.txt"; OldFilename := "old.txt"; Content := "hello world";
     Truncated := false |}.

(** An entry whose name is the parent directory. *)
Definition dotdot_file : File :=
  {| Filename := ".."; OldFilename := ""; Content := "x"; Truncated := false |}.

Definition worktree_dir : list string := ["tmp"; "repos"; "g1"].

End Sample.

(** ** The metadata side of [Gist] *)

(** The whole of the [Gist] struct, for the methods that read or write its
    metadata fields.  A [uint] is an [N], an [int] or [int64] a [Z]; none of
    the methods below does arithmetic on them.  Of the [User] struct the
    file reads [ID] and [Username]. *)
Module Full.

Record User : Type := mkUser {
  ID : N;
  Username : string
}.

(** The field [ID] of the struct is [GistID] here, [User] is [GistUser]. *)
#[warnings="-register-all"]
Inductive Gist : Type := mkGist {
  GistID : N;
  Uuid : string;
  Title : string;
  Preview : string;
  PreviewFilename : string;
  Description : string;
  Private : bool;
  UserID : N;
  GistUser : User;
  NbFiles : Z;
  NbLikes : Z;
  NbForks : Z;
  CreatedAt : Z;
  UpdatedAt : Z;
  Likes : list User;
  Forked : option Gist;
  ForkedID : N
}.

(** The zero value of the struct, which a composite literal leaves in
    every field it does not name. *)
Definition zero : Gist := {|
  GistID := 0; Uuid := ""; Title := ""; Preview := ""; PreviewFilename := "";
  Description := ""; Private := false; UserID := 0;
  GistUser := {| ID := 0; Username := "" |};
  NbFiles := 0; NbLikes := 0; NbForks := 0; CreatedAt := 0; UpdatedAt := 0;
  Likes := []; Forked := None; ForkedID := 0
|}.

(** [Gist.CanWrite(user)]: [user] is a pointer, nil when nobody is logged
    in. *)
Definition CanWrite (gist : Gist) (user : option User) : bool :=
  match user with
  | None => false
  | Some u => N.eqb (UserID gist) (ID u)
  end.

End Full.

(** What the repository methods read of a gist. *)
Definition repository_view (gist : Full.Gist) : Gist :=
  {| Uuid := Full.Uuid gist; Title := Full.Title gist;
     Description := Full.Description gist; Private := Full.Private gist;
     GistUser := {| Username := Full.Username (Full.GistUser gist) |} |}.

(** The form a gist is created or edited with. *)
Module DTO.

Record GistDTO : Type := mkGistDTO {
  Title : string;
  Description : string;
  Private : bool;
  Files : list File
}.

(** [GistDTO.ToGist()]: a new gist holding the three fields of the form. *)
Definition ToGist (dto : GistDTO) : Full.Gist := {|
  Full.GistID := 0; Full.Uuid := ""; Full.Title := Title dto; Full.Preview := "";
  Full.PreviewFilename := ""; Full.Description := Description dto;
  Full.Private := Private dto; Full.UserID := 0;
  Full.GistUser := {| Full.ID := 0; Full.Username := "" |};
  Full.NbFiles := 0; Full.NbLikes := 0; Full.NbForks := 0;
  Full.CreatedAt := 0; Full.UpdatedAt := 0;
  Full.Likes := []; Full.Forked := None; Full.ForkedID := 0
|}.

(** [GistDTO.ToExistingGist(gist)]: assigns the three fields of the form to
    the gist pointed to, and returns the pointer; the value below is the
    gist it then points to. *)
Definition ToExistingGist (dto : GistDTO) (gist : Full.Gist) : Full.Gist := {|
  Full.GistID := Full.GistID gist; Full.Uuid := Full.Uuid gist;
  Full.Title := Title dto; Full.Preview := Full.Preview gist;
  Full.PreviewFilename := Full.PreviewFilename gist;
  Full.Description := Description dto; Full.Private := Private dto;
  Full.UserID := Full.UserID gist; Full.GistUser := Full.GistUser gist;
  Full.NbFiles := Full.NbFiles gist; Full.NbLikes := Full.NbLikes gist;
  Full.NbForks := Full.NbForks gist; Full.CreatedAt := Full.CreatedAt gist;
  Full.UpdatedAt := Full.UpdatedAt gist; Full.Likes := Full.Likes gist;
  Full.Forked := Full.Forked gist; Full.ForkedID := Full.ForkedID gist
|}.

(** The tags of [GistDTO]: [max=50] on [Title], [max=150] on
    [Description], [min=1,dive] on [Files]: at least one entry, and every
    entry validated by the tags of [File]. *)
Definition valid (dto : GistDTO) : bool :=
  validate.max 50 (Title dto) && validate.max 150 (Description dto)
  && (1 <=? length (Files dto))%nat && forallb File_valid (Files dto).

End DTO.

(** ** Observing the calls of the methods *)

(** The working clone a call addresses. *)
Definition call_tmp_id (c : GitCall) : string :=
  match c with
  | CallCloneTmp _ _ gistTmpId | CallSetFileContent gistTmpId _ _
  | CallAddAll gistTmpId | CallCommit gistTmpId | CallPush gistTmpId => gistTmpId
  end.

(** What a write step of a transaction over validated entries carries. *)
Definition well_formed_write (gistTmpId : string) (c : GitCall) : Prop :=
  match c with
  | CallSetFileContent id filename content =>
      id = gistTmpId ∧ filepath.Split filename = [filename]
      ∧ (utf8.RuneCountInString filename ≤ 50)%nat ∧ content ≠ ""
  | _ => True
  end.

(** The package [G] with its untruncated blob read replaced by [full]; the
    truncated read and every other function are those of [G]. *)
Definition with_full_reads (G : GitPackage)
    (full : string → string → string → string → World G →
            (string * bool * option error) * World G) : GitPackage := {|
  World := World G;
  LogOutput := LogOutput G;
  git_InitRepository := git_InitRepository G;
  git_GetFilesOfRepository := git_GetFilesOfRepository G;
  git_GetFileContent user gist revision filename truncate :=
    if truncate then git_GetFileContent G user gist revision filename true
    else full user gist revision filename;
  git_GetLog := git_GetLog G;
  git_GetNumberOfCommitsOfRepository := git_GetNumberOfCommitsOfRepository G;
  git_CloneTmp := git_CloneTmp G;
  git_SetFileContent := git_SetFileContent G;
  git_AddAll := git_AddAll G;
  git_Commit := git_Commit G;
  git_Push := git_Push G
|}.

(** A test double of the package: the listing answers [listing], the blob
    read of a file answers [answer] of its name, every other call succeeds
    and does nothing. *)
Definition listing_double (listing : list string * option error)
    (answer : string → string * bool * option error) : GitPackage := {|
  World := unit;
  LogOutput := unit;
  git_InitRepository _ _ w := (None, w);
  git_GetFilesOfRepository _ _ _ w := (listing, w);
  git_GetFileContent _ _ _ filename _ w := (answer filename, w);
  git_GetLog _ _ _ w := ((tt, None), w);
  git_GetNumberOfCommitsOfRepository _ _ w := (("0", None), w);
  git_CloneTmp _ _ _ w := (None, w);
  git_SetFileContent _ _ _ w := (None, w);
  git_AddAll _ w := (None, w);
  git_Commit _ w := (None, w);
  git_Push _ w := (None, w)
|}.

(** More sample data. *)
Module Sample2.

(** Two files listed; the read of the second one fails. *)
Definition second_read_fails : GitPackage :=
  listing_double (["a.txt"; "b.txt"], None)
    (fun filename =>
       if decide (filename = "a.txt") then ("alpha", false, None)
       else ("", false, Some (ExitError 1))).

(** Two files listed; the second one is gone when it is read. *)
Definition second_read_not_found : GitPackage :=
  listing_double (["a.txt"; "b.txt"], None)
    (fun filename =>
       if decide (filename = "a.txt") then ("alpha", false, None)
       else ("", false, Some (ExitError 128))).

Definition alice : Full.User := {| Full.ID := 7; Full.Username := "alice" |}.

Definition alice_row : Full.Gist := {|
  Full.GistID := 3; Full.Uuid := "g1"; Full.Title := "notes"; Full.Preview := "";
  Full.PreviewFilename := ""; Full.Description := ""; Full.Private := false;
  Full.UserID := 7; Full.GistUser := alice;
  Full.NbFiles := 1; Full.NbLikes := 0; Full.NbForks := 0;
  Full.CreatedAt := 0; Full.UpdatedAt := 0;
  Full.Likes := []; Full.Forked := None; Full.ForkedID := 0
|}.

(** The same repository under another title, private. *)
Definition alice_gist_retitled : Gist :=
  {| Uuid := "g1"; Title := "secret notes"; Description := "mine"; Private := true;
     GistUser := {| Username := "alice" |} |}.

Definition form : DTO.GistDTO :=
  {| DTO.Title := "secret notes"; DTO.Description := "mine"; DTO.Private := true;
     DTO.Files := [Sample.new_file] |}.

End Sample2.

(** * Properties *)

(** ** The exit status 128 *)

Lemma exits_128_spec (err : option error) :
  exits_128 err = true ↔ err = Some (ExitError 128).
Proof.
  destruct err as [[code|msg]|]; simpl; split; try discriminate.
  - intros H%Z.eqb_eq. by subst.
  - intros [= ->]. done.
Qed.

Lemma exits_128_false (e : error) :
  e ≠ ExitError 128 → exits_128 (Some e) = false.
Proof.
  intros Hne. destruct (exits_128 (Some e)) eqn:H; [|done].
  apply exits_128_spec in H. congruence.
Qed.

(** ** Reading a revision *)

Section Reads.
Context (G : GitPackage).
Implicit Types (gist : Gist) (w : World G).

Lemma Gist_File_unfold gist revision filename truncate w :
  Gist_File G gist revision filename truncate w =
  let r := git_GetFileContent G (Username (GistUser gist)) (Uuid gist)
             revision filename truncate w in
  if exits_128 r.1.2 then ((None, None), r.2)
  else ((Some {| Filename := filename; OldFilename := "";
                 Content := r.1.1.1; Truncated := r.1.1.2 |}, r.1.2), r.2).
Proof.
  unfold Gist_File.
  by destruct (git_GetFileContent G _ _ _ _ _ w) as [[[content truncated] err] w1].
Qed.

(** [File] never hands the exit status 128 to its caller. *)
Lemma Gist_File_never_128 gist revision filename truncate w :
  exits_128 (Gist_File G gist revision filename truncate w).1.2 = false.
Proof.
  rewrite Gist_File_unfold. cbv zeta.
  destruct (exits_128 (git_GetFileContent G _ _ _ _ _ w).1.2) eqn:H; simpl; [done|exact H].
Qed.

Lemma Files_range_never_128 gist revision filesStr files w :
  exits_128 (Files_range G gist revision filesStr files w).1.2 = false.
Proof.
  revert files w. induction filesStr as [|fileStr rest IH]; intros files w; [done|].
  simpl. pose proof (Gist_File_never_128 gist revision fileStr true w) as H.
  destruct (Gist_File G gist revision fileStr true w) as [[file [e|]] w1]; simpl in *.
  - exact H.
  - apply IH.
Qed.

Lemma Gist_Files_never_128 gist revision w :
  exits_128 (Gist_Files G gist revision w).1.2 = false.
Proof.
  unfold Gist_Files.
  destruct (git_GetFilesOfRepository G _ _ _ w) as [[filesStr [e|]] w1].
  - destruct (exits_128 (Some e)) eqn:H; [done|exact H].
  - apply Files_range_never_128.
Qed.

(** The length of the slice that the loop of [Files] returns when no
    read fails: one entry per listed name, nil or not. *)
Lemma Files_range_length gist revision filesStr files w :
  (Files_range G gist revision filesStr files w).1.2 = None →
  length (Files_range G gist revision filesStr files w).1.1
  = (length files + length filesStr)%nat.
Proof.
  revert files w. induction filesStr as [|fileStr rest IH]; intros files w; simpl.
  - intros _. lia.
  - destruct (Gist_File G gist revision fileStr true w) as [[file [e|]] w1]; simpl.
    + discriminate.
    + intros H. rewrite (IH _ _ H), length_app. simpl. lia.
Qed.

End Reads.

(** C1, as the code has it.  When the listing subprocess of [Files] exits
    with status 128, [Files] returns a nil slice and a nil error; when the
    blob subprocess of [File] exits with status 128, [File] returns a nil
    pointer and a nil error; neither method ever returns an error of exit
    status 128.  Inside the loop of [Files] a blob subprocess that exits
    with status 128 adds a nil entry to the slice and the loop goes on.
    [Log] and [NbCommits] translate nothing: they return the error of
    their subprocess as it is. *)
Theorem read_operations_exit_128
    (G : GitPackage) (gist : Gist) (revision filename skip : string) (truncate : bool)
    (w : World G) :
  let user := Username (GistUser gist) in
  (∀ filesStr w1,
      git_GetFilesOfRepository G user (Uuid gist) revision w
      = ((filesStr, Some (ExitError 128)), w1) →
      Gist_Files G gist revision w = (([], None), w1))
  ∧ (∀ content truncated w1,
      git_GetFileContent G user (Uuid gist) revision filename truncate w
      = ((content, truncated, Some (ExitError 128)), w1) →
      Gist_File G gist revision filename truncate w = ((None, None), w1))
  ∧ (Gist_Files G gist revision w).1.2 ≠ Some (ExitError 128)
  ∧ (Gist_File G gist revision filename truncate w).1.2 ≠ Some (ExitError 128)
  ∧ (∀ rest files content truncated w1,
      git_GetFileContent G user (Uuid gist) revision filename true w
      = ((content, truncated, Some (ExitError 128)), w1) →
      Files_range G gist revision (filename :: rest) files w
      = Files_range G gist revision rest (files ++ [None]) w1)
  ∧ (Gist_Log G gist skip w).1 = (git_GetLog G user (Uuid gist) skip w).1.2
  ∧ Gist_NbCommits G gist w
    = git_GetNumberOfCommitsOfRepository G user (Uuid gist) w.
Proof.
  cbv zeta. repeat split.
  - intros filesStr w1 H. unfold Gist_Files. by rewrite H.
  - intros content truncated w1 H. unfold Gist_File. by rewrite H.
  - intros H%exits_128_spec. by rewrite Gist_Files_never_128 in H.
  - intros H%exits_128_spec. by rewrite Gist_File_never_128 in H.
  - intros rest files content truncated w1 H. cbn [Files_range].
    unfold Gist_File. by rewrite H.
  - unfold Gist_Log. by destruct (git_GetLog G _ _ _ w) as [[out err] w1].
Qed.

Lemma read_operations_exit_128_witness :
  Gist_Files Sample.git Sample.alice_gist "HEAD" Sample.fresh_disk
  = (([], None), Sample.fresh_disk)
  ∧ Gist_File Sample.git Sample.alice_gist "HEAD" "old.txt" true Sample.fresh_disk
    = ((None, None), Sample.fresh_disk).
Proof.
  destruct (read_operations_exit_128 Sample.git Sample.alice_gist "HEAD" "old.txt" "0" true
              Sample.fresh_disk) as (HFiles & HFile & _).
  split.
  - apply (HFiles []). reflexivity.
  - apply (HFile "" false). reflexivity.
Defined.

(** On a repository without commits the log and the count subprocesses exit
    with status 128, and [Log] and [NbCommits] return that error to the
    caller. *)
Lemma read_operations_exit_128_counterexample :
  (git_GetLog Sample.git "alice" "g1" "0" Sample.fresh_disk).1.2 = Some (ExitError 128)
  ∧ (Gist_Log Sample.git Sample.alice_gist "0" Sample.fresh_disk).1 = Some (ExitError 128)
  ∧ (git_GetNumberOfCommitsOfRepository Sample.git "alice" "g1" Sample.fresh_disk).1.2
    = Some (ExitError 128)
  ∧ (Gist_NbCommits Sample.git Sample.alice_gist Sample.fresh_disk).1
    = ("", Some (ExitError 128)).
Proof. repeat split; reflexivity. Qed.

(** C9.  When the blob subprocess of [File] fails with anything but exit
    status 128, [File] returns a non-nil [File] carrying the requested name
    and the content and truncation flag that were produced, together with
    that error.  The returned pointer is nil exactly when the subprocess
    exited with status 128, and then the returned error is nil as well: a
    nil error does not tell the caller that the pointer is non-nil. *)
Theorem Gist_File_failure_other_than_128
    (G : GitPackage) (gist : Gist) (revision filename : string) (truncate : bool)
    (w w1 : World G) (content : string) (truncated : bool) (err : option error) :
  git_GetFileContent G (Username (GistUser gist)) (Uuid gist) revision filename truncate w
  = ((content, truncated, err), w1) →
  (∀ e, err = Some e → e ≠ ExitError 128 →
     Gist_File G gist revision filename truncate w
     = ((Some {| Filename := filename; OldFilename := "";
                 Content := content; Truncated := truncated |}, Some e), w1))
  ∧ ((Gist_File G gist revision filename truncate w).1.1 = None
     ↔ err = Some (ExitError 128))
  ∧ (err = Some (ExitError 128) →
     Gist_File G gist revision filename truncate w = ((None, None), w1)).
Proof.
  intros Hget. unfold Gist_File. rewrite Hget. repeat split.
  - intros e -> Hne. by rewrite (exits_128_false e Hne).
  - destruct (exits_128 err) eqn:H; [by intros _; apply exits_128_spec | discriminate].
  - intros H%exits_128_spec. by rewrite H.
  - intros H%exits_128_spec. by rewrite H.
Qed.

Lemma Gist_File_failure_other_than_128_witness :
  Gist_File (scripted ("partial", false, Some (ExitError 1)))
    Sample.alice_gist "HEAD" "a.txt" true tt
  = ((Some {| Filename := "a.txt"; OldFilename := "";
              Content := "partial"; Truncated := false |}, Some (ExitError 1)), tt).
Proof.
  refine (proj1 (Gist_File_failure_other_than_128
                   (scripted ("partial", false, Some (ExitError 1)))
                   Sample.alice_gist "HEAD" "a.txt" true tt tt
                   "partial" false (Some (ExitError 1)) eq_refl)
                (ExitError 1) eq_refl _).
  discriminate.
Defined.

(** C8, as the code has it.  [Log] runs the log subprocess for the gist and
    [skip] and returns its error and nothing else: the log that the
    subprocess produced is dropped, so two runs whose subprocesses end with
    the same error return the same result whatever their logs are. *)
Theorem Gist_Log_returns_only_the_error
    (G : GitPackage) (gist : Gist) (skip : string) (w : World G) :
  Gist_Log G gist skip w
  = ((git_GetLog G (Username (GistUser gist)) (Uuid gist) skip w).1.2,
     (git_GetLog G (Username (GistUser gist)) (Uuid gist) skip w).2)
  ∧ ∀ w' : World G,
      (git_GetLog G (Username (GistUser gist)) (Uuid gist) skip w).1.2
      = (git_GetLog G (Username (GistUser gist)) (Uuid gist) skip w').1.2 →
      (Gist_Log G gist skip w).1 = (Gist_Log G gist skip w').1.
Proof.
  assert (∀ w0, Gist_Log G gist skip w0
    = ((git_GetLog G (Username (GistUser gist)) (Uuid gist) skip w0).1.2,
       (git_GetLog G (Username (GistUser gist)) (Uuid gist) skip w0).2)) as Hlog.
  { intros w0. unfold Gist_Log. by destruct (git_GetLog G _ _ _ w0) as [[out err] w1]. }
  split; [apply Hlog|].
  intros w' H. by rewrite !Hlog.
Qed.

Lemma Gist_Log_returns_only_the_error_witness :
  (Gist_Log Sample.git Sample.alice_gist "0" Sample.one_commit_disk).1
  = (Gist_Log Sample.git Sample.alice_gist "0" Sample.two_commits_disk).1.
Proof.
  apply (proj2 (Gist_Log_returns_only_the_error Sample.git Sample.alice_gist "0"
                  Sample.one_commit_disk) Sample.two_commits_disk).
  reflexivity.
Defined.

(** Two repositories with different logs, read with the same [skip]: the
    log subprocess succeeds with two different logs, and [Log] returns the
    same nil error for both, from which no log can be told. *)
Lemma Gist_Log_returns_only_the_error_counterexample :
  (git_GetLog Sample.git "alice" "g1" "0" Sample.one_commit_disk).1 = (["0"], None)
  ∧ (git_GetLog Sample.git "alice" "g1" "0" Sample.two_commits_disk).1 = (["1"; "0"], None)
  ∧ (Gist_Log Sample.git Sample.alice_gist "0" Sample.one_commit_disk).1 = None
  ∧ (Gist_Log Sample.git Sample.alice_gist "0" Sample.two_commits_disk).1 = None
  ∧ ¬ ∃ log_of : option error → list string,
        ∀ d, log_of (Gist_Log Sample.git Sample.alice_gist "0" d).1
             = (git_GetLog Sample.git "alice" "g1" "0" d).1.1.
Proof.
  repeat split; try reflexivity.
  intros [log_of H].
  pose proof (H Sample.one_commit_disk) as H1.
  pose proof (H Sample.two_commits_disk) as H2.
  vm_compute in H1, H2. congruence.
Qed.

(** ** The edit transaction *)

Section Transaction.
Context (G : GitPackage).
Implicit Types (gist : Gist) (files : list File) (w : World G) (cs : list GitCall).

Lemma SetFiles_range_exec gist files w :
  SetFiles_range G gist files w = exec_calls G (write_calls gist files) w.
Proof.
  revert w. induction files as [|file rest IH]; intros w; [done|].
  simpl. destruct (git_SetFileContent G _ _ _ w) as [[e|] w1]; [done|apply IH].
Qed.

Lemma exec_calls_app cs1 cs2 w :
  exec_calls G (cs1 ++ cs2) w =
  match exec_calls G cs1 w with
  | (Some e, w1) => (Some e, w1)
  | (None, w1) => exec_calls G cs2 w1
  end.
Proof.
  revert w. induction cs1 as [|c cs1 IH]; intros w; simpl.
  - done.
  - destruct (exec_call G c w) as [[e|] w1]; [done|apply IH].
Qed.

(** The method is its steps made in order up to the first error. *)
Lemma Gist_AddAndCommitFiles_exec gist files w :
  Gist_AddAndCommitFiles G gist files w = exec_calls G (transaction_steps gist files) w.
Proof.
  unfold Gist_AddAndCommitFiles, transaction_steps.
  cbn [exec_calls exec_call].
  destruct (git_CloneTmp G _ _ _ w) as [[e|] w1]; [done|].
  rewrite exec_calls_app, SetFiles_range_exec.
  destruct (exec_calls G (write_calls gist files) w1) as [[e|] w2]; [done|].
  cbn [exec_calls exec_call].
  destruct (git_AddAll G _ w2) as [[e|] w3]; [done|].
  destruct (git_Commit G _ w3) as [[e|] w4]; [done|].
  by destruct (git_Push G _ w4) as [[e|] w5].
Qed.

(** Against the journalled package the same calls are made, and the
    journal grows by the calls made. *)
Lemma exec_calls_Journal cs w journal :
  exec_calls (Journal G) cs (w, journal)
  = ((exec_calls G cs w).1, ((exec_calls G cs w).2, journal ++ executed G cs w)).
Proof.
  revert w journal. induction cs as [|c cs IH]; intros w journal; simpl.
  - by rewrite app_nil_r.
  - assert (exec_call (Journal G) c (w, journal)
            = ((exec_call G c w).1, ((exec_call G c w).2, journal ++ [c]))) as ->.
    { destruct c; simpl; unfold journalled; simpl;
        by destruct (_ G _) as [r w1] || idtac. }
    destruct (exec_call G c w) as [[e|] w1]; simpl; [done|].
    by rewrite IH, <- app_assoc.
Qed.

(** The calls made are a non-empty prefix of the steps; all but the last
    succeeded; the last one's result is the result of the whole; and when
    that result is a success the prefix is all the steps. *)
Lemma executed_prefix cs w :
  cs ≠ [] →
  ∃ (k : nat) (c : GitCall) (w0 : World G),
    (1 ≤ k ≤ length cs)%nat
    ∧ executed G cs w = take k cs
    ∧ cs !! (k - 1)%nat = Some c
    ∧ exec_calls G (take (k - 1) cs) w = (None, w0)
    ∧ exec_call G c w0 = exec_calls G cs w
    ∧ (if (exec_calls G cs w).1 is Some _ then True else k = length cs).
Proof.
  revert w. induction cs as [|c cs IH]; intros w Hne; [done|].
  simpl. destruct (exec_call G c w) as [[e|] w1] eqn:Hc.
  - exists 1%nat, c, w. simpl. rewrite take_0. repeat split; (done || lia).
  - destruct cs as [|c' cs'].
    + exists 1%nat, c, w. simpl. repeat split; (done || lia).
    + destruct (IH w1 ltac:(done)) as (k & c0 & w0 & Hk & Hex & Hlook & Hpre & Hlast & Hall).
      exists (S k), c0, w0. repeat split.
      * lia.
      * simpl in *. lia.
      * by rewrite Hex.
      * destruct k as [|k]; [lia|]. simpl in *. by rewrite Nat.sub_0_r in *.
      * destruct k as [|k]; [lia|]. cbn [Nat.sub] in *. rewrite Nat.sub_0_r in *.
        cbn [take exec_calls]. by rewrite Hc.
      * done.
      * destruct ((exec_calls G (c' :: cs') w1).1); [done|]. simpl in *. lia.
Qed.

Lemma executed_app cs1 cs2 w :
  executed G (cs1 ++ cs2) w =
  executed G cs1 w ++ match exec_calls G cs1 w with
                      | (Some _, _) => []
                      | (None, w1) => executed G cs2 w1
                      end.
Proof.
  revert w. induction cs1 as [|c cs1 IH]; intros w; simpl.
  - done.
  - destruct (exec_call G c w) as [[e|] w1]; [done|]. by rewrite IH.
Qed.

Lemma executed_Forall (P : GitCall → Prop) cs w :
  Forall P cs → Forall P (executed G cs w).
Proof.
  revert w. induction cs as [|c cs IH]; intros w Hcs; simpl; [done|].
  inversion_clear Hcs as [|? ? Hc Hrest]. constructor; [done|].
  destruct (exec_call G c w) as [[e|] w1]; [constructor|by apply IH].
Qed.


(** The steps between the clone and the push, all inside the clone. *)
Lemma transaction_steps_in_clone gist files :
  ∃ middle,
    transaction_steps gist files
    = CallCloneTmp (Username (GistUser gist)) (Uuid gist) (Uuid gist)
      :: middle ++ [CallPush (Uuid gist)]
    ∧ Forall (fun c => works_in_clone (Uuid gist) c = true) middle.
Proof.
  exists (write_calls gist files ++ [CallAddAll (Uuid gist); CallCommit (Uuid gist)]).
  split.
  - unfold transaction_steps. f_equal. by rewrite <- app_assoc.
  - apply Forall_app. split.
    + unfold write_calls. apply Forall_fmap, Forall_true. intros file. simpl.
      by apply bool_decide_eq_true.
    + repeat constructor; simpl; by apply bool_decide_eq_true.
Qed.

End Transaction.

(** C4.  Run against the journalled package, [AddAndCommitFiles] makes the
    calls of a non-empty prefix of its steps — the clone, one write per
    supplied file in the order supplied, one staging, one commit, one
    push — and no other call.  Every call before the last one made
    succeeded, the result of the last one is the result of the
    transaction, and when the transaction succeeds every step was made:
    a step that fails is the last one made. *)
Theorem AddAndCommitFiles_steps_in_order
    (G : GitPackage) (gist : Gist) (files : list File) (w : World G)
    (journal : list GitCall) :
  let r := Gist_AddAndCommitFiles (Journal G) gist files (w, journal) in
  let steps := transaction_steps gist files in
  steps = CallCloneTmp (Username (GistUser gist)) (Uuid gist) (Uuid gist)
          :: ((fun file => CallSetFileContent (Uuid gist) (Filename file) (Content file))
                <$> files)
          ++ [CallAddAll (Uuid gist); CallCommit (Uuid gist); CallPush (Uuid gist)]
  ∧ r.1 = (Gist_AddAndCommitFiles G gist files w).1
  ∧ r.2.1 = (Gist_AddAndCommitFiles G gist files w).2
  ∧ ∃ (k : nat) (last : GitCall) (w0 : World G),
      (1 ≤ k ≤ length steps)%nat
      ∧ r.2.2 = journal ++ take k steps
      ∧ steps !! (k - 1)%nat = Some last
      ∧ exec_calls G (take (k - 1) steps) w = (None, w0)
      ∧ exec_call G last w0 = (r.1, r.2.1)
      ∧ (if r.1 is Some _ then True else k = length steps).
Proof.
  cbv zeta.
  rewrite (Gist_AddAndCommitFiles_exec (Journal G)), exec_calls_Journal.
  rewrite <- Gist_AddAndCommitFiles_exec. cbn [fst snd].
  split; [done|]. split; [done|]. split; [done|].
  assert (transaction_steps gist files ≠ []) as Hne by done.
  destruct (executed_prefix G (transaction_steps gist files) w Hne)
    as (k & c & w0 & Hk & Hex & Hlook & Hpre & Hlast & Hall).
  exists k, c, w0. rewrite Gist_AddAndCommitFiles_exec.
  split; [lia|]. split; [by rewrite Hex|]. split; [done|]. split; [done|].
  split; [|done].
  rewrite Hlast. apply surjective_pairing.
Qed.

(** A transaction of one file on a disk where staging fails: the clone and
    the write are made, the staging is made and fails, nothing follows. *)
Example AddAndCommitFiles_stops_at_staging :
  (Gist_AddAndCommitFiles (Journal Sample.git) Sample.alice_gist [Sample.new_file]
     (Sample.staging_fails_disk, [])).1 = Some (OtherError "no space left on device")
  ∧ (Gist_AddAndCommitFiles (Journal Sample.git) Sample.alice_gist [Sample.new_file]
       (Sample.staging_fails_disk, [])).2.2
    = [CallCloneTmp "alice" "g1" "g1"; CallSetFileContent "g1" "new.txt" "fresh";
       CallAddAll "g1"].
Proof. split; reflexivity. Qed.

Section Frame.
Context (G : GitPackage).
Context {Refs : Type} (canonical : World G → Refs).

(** What the design says of the steps before the push: they work inside
    the disposable clone. *)
Hypothesis CloneTmp_frame : ∀ user gist gistTmpId w,
  canonical (git_CloneTmp G user gist gistTmpId w).2 = canonical w.
Hypothesis SetFileContent_frame : ∀ gistTmpId filename content w,
  canonical (git_SetFileContent G gistTmpId filename content w).2 = canonical w.
Hypothesis AddAll_frame : ∀ gistTmpId w,
  canonical (git_AddAll G gistTmpId w).2 = canonical w.
Hypothesis Commit_frame : ∀ gistTmpId w,
  canonical (git_Commit G gistTmpId w).2 = canonical w.



End Frame.

(** The model of the package keeps to the frame the design gives the steps
    before the push, and none of its steps deletes a working clone. *)
Section GitModelFacts.
Import GitModel.



Lemma in_clone_tmp_clones step gistTmpId f d id :
  id ∈ tmp_clones d → id ∈ tmp_clones (in_clone step gistTmpId f d).2.
Proof.
  unfold in_clone, tmp_clones. destruct (io_failure d step); [done|].
  destruct (tmp d !! gistTmpId); [|done]. simpl.
  rewrite dom_insert_L. set_solver.
Qed.

Lemma CloneTmp_tmp_clones user gist gistTmpId d :
  (CloneTmp user gist gistTmpId d).1 = None →
  gistTmpId ∈ tmp_clones (CloneTmp user gist gistTmpId d).2.
Proof.
  unfold CloneTmp, tmp_clones. destruct (io_failure d StepClone); [done|].
  destruct (repositories d !! (user, gist)); [|done]. simpl. intros _.
  rewrite dom_insert_L. set_solver.
Qed.

End GitModelFacts.


Section Teardown.
Context (G : GitPackage).
Context (tmp_exists : World G → string → Prop).

(** A successful clone leaves a working clone on the disk, and the steps
    that work inside it do not delete it, whether they succeed or fail. *)
Hypothesis CloneTmp_creates : ∀ user gist gistTmpId w,
  (git_CloneTmp G user gist gistTmpId w).1 = None →
  tmp_exists (git_CloneTmp G user gist gistTmpId w).2 gistTmpId.
Hypothesis SetFileContent_keeps : ∀ gistTmpId filename content w,
  tmp_exists w gistTmpId →
  tmp_exists (git_SetFileContent G gistTmpId filename content w).2 gistTmpId.
Hypothesis AddAll_keeps : ∀ gistTmpId w,
  tmp_exists w gistTmpId → tmp_exists (git_AddAll G gistTmpId w).2 gistTmpId.
Hypothesis Commit_keeps : ∀ gistTmpId w,
  tmp_exists w gistTmpId → tmp_exists (git_Commit G gistTmpId w).2 gistTmpId.

Lemma exec_calls_keeps (gistTmpId : string) (cs : list GitCall) (w : World G) :
  Forall (fun c => works_in_clone gistTmpId c = true) cs →
  tmp_exists w gistTmpId → tmp_exists (exec_calls G cs w).2 gistTmpId.
Proof using SetFileContent_keeps AddAll_keeps Commit_keeps.
  revert w. induction cs as [|c cs IH]; intros w Hcs Hw; [done|].
  inversion_clear Hcs as [|? ? Hc Hrest]. simpl.
  assert (tmp_exists (exec_call G c w).2 gistTmpId) as Hstep.
  { destruct c; simpl in Hc; try discriminate;
      apply bool_decide_eq_true in Hc as ->; simpl; auto. }
  destruct (exec_call G c w) as [[e|] w1]; simpl in *; [done|].
  by apply IH.
Qed.

(** C3, as the code has it.  [AddAndCommitFiles] has no teardown step:
    when its clone step succeeded and it returns without having made the
    push, it returns the error of the step that failed, in the world that
    step left, and the temporary working clone is still on the disk. *)
Theorem failed_transaction_leaves_clone (gist : Gist) (files : list File) (w : World G) :
  let r := Gist_AddAndCommitFiles (Journal G) gist files (w, []) in
  (git_CloneTmp G (Username (GistUser gist)) (Uuid gist) (Uuid gist) w).1 = None →
  CallPush (Uuid gist) ∉ r.2.2 →
  is_Some r.1
  ∧ r.1 = (Gist_AddAndCommitFiles G gist files w).1
  ∧ r.2.1 = (Gist_AddAndCommitFiles G gist files w).2
  ∧ tmp_exists r.2.1 (Uuid gist).
Proof using All.
  cbv zeta.
  rewrite (Gist_AddAndCommitFiles_exec (Journal G)), exec_calls_Journal.
  rewrite <- Gist_AddAndCommitFiles_exec. cbn [fst snd].
  rewrite Gist_AddAndCommitFiles_exec.
  intros Hclone Hnopush.
  pose proof (CloneTmp_creates _ _ _ _ Hclone) as Hcreated.
  destruct (transaction_steps_in_clone gist files) as (middle & Hsteps & Hmiddle).
  rewrite Hsteps in Hnopush |- *. clear Hsteps.
  cbn [exec_calls executed exec_call] in Hnopush |- *.
  destruct (git_CloneTmp G _ _ _ w) as [[e|] w1]; simpl in Hclone, Hcreated; [done|].
  rewrite exec_calls_app. rewrite executed_app in Hnopush.
  pose proof (exec_calls_keeps (Uuid gist) middle w1 Hmiddle Hcreated) as Hkept.
  destruct (exec_calls G middle w1) as [[e|] w2]; simpl in *.
  - split; [by eexists|done].
  - exfalso. apply Hnopush. set_solver.
Qed.

End Teardown.

Lemma failed_transaction_leaves_clone_witness :
  let r := Gist_AddAndCommitFiles (Journal Sample.git) Sample.alice_gist [Sample.new_file]
             (Sample.staging_fails_disk, []) in
  is_Some r.1 ∧ "g1" ∈ GitModel.tmp_clones r.2.1.
Proof.
  pose proof (failed_transaction_leaves_clone Sample.git
            (fun d id => id ∈ GitModel.tmp_clones d)
            CloneTmp_tmp_clones
            (fun gistTmpId filename content d => in_clone_tmp_clones _ gistTmpId _ d gistTmpId)
            (fun gistTmpId d => in_clone_tmp_clones _ gistTmpId _ d gistTmpId)
            (fun gistTmpId d => in_clone_tmp_clones _ gistTmpId _ d gistTmpId)
            Sample.alice_gist [Sample.new_file] Sample.staging_fails_disk) as H.
  cbv zeta in *. destruct H as (Hfail & _ & _ & Hclone).
  - reflexivity.
  - apply (bool_decide_unpack _). vm_compute. exact I.
  - split; [exact Hfail|exact Hclone].
Defined.

(** A transaction that fails at staging: no temporary clone before it, the
    error of the staging returned, and the clone [g1] left on the disk. *)
Lemma failed_transaction_leaves_clone_counterexample :
  GitModel.tmp Sample.staging_fails_disk !! "g1" = None
  ∧ (Gist_AddAndCommitFiles Sample.git Sample.alice_gist [Sample.new_file]
       Sample.staging_fails_disk).1 = Some (OtherError "no space left on device")
  ∧ is_Some (GitModel.tmp (Gist_AddAndCommitFiles Sample.git Sample.alice_gist
                             [Sample.new_file] Sample.staging_fails_disk).2 !! "g1")
  ∧ "g1" ∈ GitModel.tmp_clones
             (Gist_AddAndCommitFiles Sample.git Sample.alice_gist [Sample.new_file]
                Sample.staging_fails_disk).2.
Proof.
  assert (is_Some (GitModel.tmp (Gist_AddAndCommitFiles Sample.git Sample.alice_gist
                             [Sample.new_file] Sample.staging_fails_disk).2 !! "g1")) as H.
  { vm_compute. by eexists. }
  split; [reflexivity|]. split; [reflexivity|]. split; [exact H|].
  unfold GitModel.tmp_clones. by apply elem_of_dom.
Qed.

(** ** Reading through the model of the package *)

Lemma substring_prefix (n : nat) (s : string) :
  (n ≤ String.length s)%nat →
  String.length (String.substring 0 n s) = n
  ∧ ∃ rest, s = String.append (String.substring 0 n s) rest.
Proof.
  revert s. induction n as [|n IH]; intros s Hn.
  - destruct s; simpl; (split; [done|by eexists]).
  - destruct s as [|c s]; simpl in *; [lia|].
    destruct (IH s ltac:(lia)) as (Hlen & rest & Hrest).
    split; [by rewrite Hlen|]. exists rest.
    change (String c s = String c (String.append (String.substring 0 n s) rest)).
    by f_equal.
Qed.

(** C5.  For a file that exists at the revision: read with truncation
    requested, a content longer than the cap comes back as its first [cap]
    bytes with the truncated flag set; read without truncation, the whole
    content comes back with the flag unset. *)
Theorem Gist_File_truncation
    (cap : nat) (gist : Gist) (revision filename content : string) (d : GitModel.Disk) :
  GitModel.blob (Username (GistUser gist)) (Uuid gist) revision filename d = Some content →
  ((cap < String.length content)%nat →
     Gist_File (GitModel.package cap) gist revision filename true d
     = ((Some {| Filename := filename; OldFilename := "";
                 Content := String.substring 0 cap content; Truncated := true |}, None), d)
     ∧ String.length (String.substring 0 cap content) = cap
     ∧ ∃ rest, content = String.append (String.substring 0 cap content) rest)
  ∧ Gist_File (GitModel.package cap) gist revision filename false d
    = ((Some {| Filename := filename; OldFilename := "";
                Content := content; Truncated := false |}, None), d).
Proof.
  intros Hblob. split.
  - intros Hcap. split.
    + unfold Gist_File. simpl. unfold GitModel.GetFileContent. rewrite Hblob.
      apply Nat.ltb_lt in Hcap. by rewrite Hcap.
    + apply substring_prefix. lia.
  - unfold Gist_File. simpl. unfold GitModel.GetFileContent. by rewrite Hblob.
Qed.

Lemma Gist_File_truncation_witness :
  Gist_File Sample.git Sample.alice_gist "HEAD" "old.txt" true Sample.one_commit_disk
  = ((Some {| Filename := "old.txt"; OldFilename := "";
              Content := "hell"; Truncated := true |}, None), Sample.one_commit_disk)
  ∧ Gist_File Sample.git Sample.alice_gist "HEAD" "old.txt" false Sample.one_commit_disk
    = ((Some {| Filename := "old.txt"; OldFilename := "";
                Content := "hello world"; Truncated := false |}, None),
       Sample.one_commit_disk).
Proof.
  destruct (Gist_File_truncation 4 Sample.alice_gist "HEAD" "old.txt" "hello world"
              Sample.one_commit_disk) as [Htruncated Hfull].
  - reflexivity.
  - split; [|exact Hfull].
    destruct Htruncated as [H _]; [simpl; lia|exact H].
Defined.

(** C7.  When [InitRepository] succeeds, listing the files of [HEAD] right
    after it returns a nil slice and a nil error: the repository has no
    commit, the listing subprocess exits with status 128, and [Files]
    turns that into the not-found outcome. *)
Theorem Files_of_HEAD_after_init
    (cap : nat) (gist : Gist) (d d' : GitModel.Disk) :
  Gist_InitRepository (GitModel.package cap) gist d = (None, d') →
  Gist_Files (GitModel.package cap) gist "HEAD" d' = (([], None), d').
Proof.
  unfold Gist_InitRepository. simpl. unfold GitModel.InitRepository.
  destruct (GitModel.io_failure d GitModel.StepInit); [discriminate|].
  destruct (GitModel.repositories d !! _); [discriminate|].
  intros [= <-]. unfold Gist_Files. simpl. unfold GitModel.GetFilesOfRepository. simpl.
  by rewrite lookup_insert_eq.
Qed.

Lemma Files_of_HEAD_after_init_witness :
  Gist_Files Sample.git Sample.alice_gist "HEAD" Sample.fresh_disk
  = (([], None), Sample.fresh_disk).
Proof.
  apply (Files_of_HEAD_after_init 4 Sample.alice_gist GitModel.empty_disk Sample.fresh_disk).
  reflexivity.
Defined.

(** ** Writing through the model of the package *)

(** [AddAndCommitFiles] reads the [Filename] and the [Content] of each
    entry and nothing else: two lists of entries that agree on these make
    the same transaction, whatever package it runs against. *)
Lemma AddAndCommitFiles_ignores_OldFilename
    (G : GitPackage) (gist : Gist) (files files' : list File) (w : World G) :
  (fun file => (Filename file, Content file)) <$> files
  = (fun file => (Filename file, Content file)) <$> files' →
  Gist_AddAndCommitFiles G gist files w = Gist_AddAndCommitFiles G gist files' w.
Proof.
  intros Hsame. rewrite !Gist_AddAndCommitFiles_exec. unfold transaction_steps.
  do 3 f_equal. unfold write_calls.
  revert files' Hsame. induction files as [|file files IH]; intros [|file' files'] Hsame;
    try done.
  simpl in *. injection Hsame as Hname Hcontent Hrest.
  rewrite Hname, Hcontent. f_equal. by apply IH.
Qed.

Section GitModelWrites.
Import GitModel.






End GitModelWrites.



(** ** Validated file entries *)

Lemma excludes_char (c : ascii) (s : string) :
  validate.excludes (String c "") s = true ↔ ∀ m, String.get m s ≠ Some c.
Proof.
  unfold validate.excludes, validate.Contains.
  assert (String.index 0 (String c "") s = None ↔ ∀ m, String.get m s ≠ Some c) as H.
  { induction s as [|b s IH].
    - simpl. split; [by intros _ m|done].
    - cbn [String.index String.prefix]. destruct (ascii_dec c b) as [->|Hne].
      + replace (String.prefix "" s) with true by (by destruct s).
        split; [done|]. intros Hget. by specialize (Hget 0%nat).
      + destruct (String.index 0 (String c "") s) as [n|].
        * split; [done|]. intros Hget. exfalso.
          assert (∀ m, String.get m s ≠ Some c) as Hs
            by (intros m; exact (Hget (S m))).
          by apply IH in Hs.
        * split; [|done]. intros _ [|m]; simpl; [congruence|].
          by apply IH. }
  destruct (String.index 0 (String c "") s) eqn:Hindex; simpl.
  - split; [done|]. intros Hget. by apply H in Hget.
  - split; [|done]. intros _. by apply H.
Qed.

(** A name without a slash is a single component. *)
Lemma Split_single (s : string) :
  (∀ m, String.get m s ≠ Some "/"%char) → filepath.Split s = [s].
Proof.
  induction s as [|c s IH]; intros Hget; [done|].
  simpl. destruct (decide (c = "/"%char)) as [->|Hne].
  - by specialize (Hget 0%nat).
  - rewrite IH; [done|]. intros m. exact (Hget (S m)).
Qed.

Lemma entry_path_single (dir : list string) (name : string) :
  (∀ m, String.get m name ≠ Some "/"%char) → name ≠ ".." →
  inside_top_level dir (entry_path dir name).
Proof.
  intros Hslash Hdots. unfold entry_path, filepath.Join, inside_top_level.
  rewrite Split_single by done. simpl. unfold filepath.enter.
  destruct (decide (name = "" ∨ name = ".")).
  - split; [done|lia].
  - rewrite decide_False by done. split.
    + by apply prefix_app_r.
    + rewrite length_app. simpl. lia.
Qed.

(** C10, as the code has it.  In a [File] that passes validation the
    [Filename] and the [OldFilename] hold neither a slash nor a backslash
    and count at most 50 runes, and the [Content] is not empty.  Each of
    the two names is therefore a single path component, and unless it is
    the component [..] the path it names lies in the top-level directory
    of the working tree. *)
Theorem valid_File_names
    (f : File) (worktree_dir : list string) :
  File_valid f = true →
  (∀ m, String.get m (Filename f) ≠ Some "/"%char
        ∧ String.get m (Filename f) ≠ Some "\"%char)
  ∧ (∀ m, String.get m (OldFilename f) ≠ Some "/"%char
          ∧ String.get m (OldFilename f) ≠ Some "\"%char)
  ∧ (utf8.RuneCountInString (Filename f) ≤ 50)%nat
  ∧ (utf8.RuneCountInString (OldFilename f) ≤ 50)%nat
  ∧ Content f ≠ ""
  ∧ filepath.Split (Filename f) = [Filename f]
  ∧ filepath.Split (OldFilename f) = [OldFilename f]
  ∧ (Filename f ≠ ".." →
     inside_top_level worktree_dir (entry_path worktree_dir (Filename f)))
  ∧ (OldFilename f ≠ ".." →
     inside_top_level worktree_dir (entry_path worktree_dir (OldFilename f))).
Proof.
  unfold File_valid. rewrite !andb_true_iff.
  intros ((((((Hs1 & Hb1) & Hm1) & Hs2) & Hb2) & Hm2) & Hreq).
  pose proof (proj1 (excludes_char _ _) Hs1) as Hslash1.
  pose proof (proj1 (excludes_char _ _) Hb1) as Hback1.
  pose proof (proj1 (excludes_char _ _) Hs2) as Hslash2.
  pose proof (proj1 (excludes_char _ _) Hb2) as Hback2.
  apply Nat.leb_le in Hm1, Hm2.
  unfold validate.required in Hreq. apply negb_true_iff, String.eqb_neq in Hreq.
  repeat split; try done; try (by apply Split_single); try (by apply entry_path_single).
Qed.

Lemma valid_File_names_witness :
  File_valid Sample.new_file = true
  ∧ inside_top_level Sample.worktree_dir
      (entry_path Sample.worktree_dir (Filename Sample.new_file)).
Proof.
  split; [reflexivity|].
  destruct (valid_File_names Sample.new_file Sample.worktree_dir eq_refl)
    as (_ & _ & _ & _ & _ & _ & _ & Hinside & _).
  apply Hinside. discriminate.
Defined.

(** The entry named [..] passes validation, and the path it names in the
    working tree [/tmp/repos/g1] is [/tmp/repos], outside the tree. *)
Lemma valid_File_names_counterexample :
  File_valid Sample.dotdot_file = true
  ∧ entry_path Sample.worktree_dir (Filename Sample.dotdot_file) = ["tmp"; "repos"]
  ∧ ¬ Sample.worktree_dir `prefix_of`
        entry_path Sample.worktree_dir (Filename Sample.dotdot_file)
  ∧ ¬ inside_top_level Sample.worktree_dir
        (entry_path Sample.worktree_dir (Filename Sample.dotdot_file)).
Proof.
  assert (¬ Sample.worktree_dir `prefix_of`
            entry_path Sample.worktree_dir (Filename Sample.dotdot_file)) as H.
  { intros [k Hk]. vm_compute in Hk. discriminate. }
  split; [reflexivity|]. split; [reflexivity|]. split; [exact H|].
  intros [Hprefix _]. by apply H.
Qed.

(** The cap of 50 counts runes, not bytes: fifty two-byte letters pass,
    fifty-one one-byte letters do not. *)
Example max_tag_counts_runes :
  let fifty := "éééééééééééééééééééééééééééééééééééééééééééééééééé" in
  String.length fifty = 100%nat
  ∧ File_valid {| Filename := fifty; OldFilename := ""; Content := "x";
                  Truncated := false |} = true
  ∧ File_valid {| Filename := "aaaaaaaaaaaaaaaaaaaaaaaaaaaaaaaaaaaaaaaaaaaaaaaaaaa";
                  OldFilename := ""; Content := "x"; Truncated := false |} = false.
Proof. repeat split; reflexivity. Qed.

(** * Further properties of the methods *)

(** ** What the repository methods read of a gist *)

Section Identity.
Context (G : GitPackage).
Implicit Types (gist : Gist) (w : World G).

Lemma Gist_File_identity gist gist' revision filename truncate w :
  Uuid gist = Uuid gist' → Username (GistUser gist) = Username (GistUser gist') →
  Gist_File G gist revision filename truncate w
  = Gist_File G gist' revision filename truncate w.
Proof. intros Huuid Huser. unfold Gist_File. by rewrite Huuid, Huser. Qed.

Lemma Files_range_identity gist gist' revision filesStr files w :
  Uuid gist = Uuid gist' → Username (GistUser gist) = Username (GistUser gist') →
  Files_range G gist revision filesStr files w
  = Files_range G gist' revision filesStr files w.
Proof.
  intros Huuid Huser. revert files w.
  induction filesStr as [|fileStr rest IH]; intros files w; [done|].
  cbn [Files_range]. rewrite (Gist_File_identity gist gist') by done.
  destruct (Gist_File G gist' revision fileStr true w) as [[file [e|]] w1]; [done|].
  apply IH.
Qed.

Lemma SetFiles_range_identity gist gist' files w :
  Uuid gist = Uuid gist' →
  SetFiles_range G gist files w = SetFiles_range G gist' files w.
Proof.
  intros Huuid. revert w. induction files as [|file rest IH]; intros w; [done|].
  cbn [SetFiles_range]. rewrite Huuid.
  destruct (git_SetFileContent G _ _ _ w) as [[e|] w1]; [done|apply IH].
Qed.

End Identity.

(** X1.  The repository methods read [User.Username] and [Uuid] of the
    gist and nothing else: two gists that agree on these, whatever their
    title, description or privacy, get the same result and the same effect
    from every method. *)
Theorem methods_read_owner_and_uuid_only
    (G : GitPackage) (gist gist' : Gist) (revision filename skip : string)
    (truncate : bool) (files : list File) (w : World G) :
  Uuid gist = Uuid gist' → Username (GistUser gist) = Username (GistUser gist') →
  Gist_InitRepository G gist w = Gist_InitRepository G gist' w
  ∧ Gist_Files G gist revision w = Gist_Files G gist' revision w
  ∧ Gist_File G gist revision filename truncate w
    = Gist_File G gist' revision filename truncate w
  ∧ Gist_Log G gist skip w = Gist_Log G gist' skip w
  ∧ Gist_NbCommits G gist w = Gist_NbCommits G gist' w
  ∧ Gist_AddAndCommitFiles G gist files w = Gist_AddAndCommitFiles G gist' files w.
Proof.
  intros Huuid Huser. repeat split.
  - unfold Gist_InitRepository. by rewrite Huuid, Huser.
  - unfold Gist_Files. rewrite Huuid, Huser.
    destruct (git_GetFilesOfRepository G _ _ _ w) as [[filesStr [e|]] w1]; [done|].
    by apply Files_range_identity.
  - by apply Gist_File_identity.
  - unfold Gist_Log. by rewrite Huuid, Huser.
  - unfold Gist_NbCommits. by rewrite Huuid, Huser.
  - unfold Gist_AddAndCommitFiles. rewrite Huuid, Huser.
    destruct (git_CloneTmp G _ _ _ w) as [[e|] w1]; [done|].
    by rewrite (SetFiles_range_identity G gist gist').
Qed.

Lemma methods_read_owner_and_uuid_only_witness :
  Gist_Files Sample.git Sample.alice_gist "HEAD" Sample.one_commit_disk
  = Gist_Files Sample.git Sample2.alice_gist_retitled "HEAD" Sample.one_commit_disk
  ∧ Gist_AddAndCommitFiles Sample.git Sample.alice_gist [Sample.new_file]
      Sample.one_commit_disk
    = Gist_AddAndCommitFiles Sample.git Sample2.alice_gist_retitled [Sample.new_file]
        Sample.one_commit_disk.
Proof.
  destruct (methods_read_owner_and_uuid_only Sample.git Sample.alice_gist
              Sample2.alice_gist_retitled "HEAD" "old.txt" "0" true [Sample.new_file]
              Sample.one_commit_disk eq_refl eq_refl)
    as (_ & HFiles & _ & _ & _ & Hadd).
  split; [exact HFiles|exact Hadd].
Defined.

(** ** The slice that [Files] returns *)

Section FilesShape.
Context (G : GitPackage).
Implicit Types (gist : Gist) (w : World G).

Lemma Files_range_error gist revision filesStr files w e :
  (Files_range G gist revision filesStr files w).1.2 = Some e →
  (Files_range G gist revision filesStr files w).1.1 = [].
Proof.
  revert files w. induction filesStr as [|fileStr rest IH]; intros files w; [done|].
  cbn [Files_range].
  destruct (Gist_File G gist revision fileStr true w) as [[file [e'|]] w1]; [done|].
  apply IH.
Qed.

(** An entry of the slice for a listed name: nil, or a [File] of that
    name. *)
Lemma Gist_File_entry gist revision filename truncate w :
  (Gist_File G gist revision filename truncate w).1.1 = None
  ∨ ∃ content truncated,
      (Gist_File G gist revision filename truncate w).1.1
      = Some {| Filename := filename; OldFilename := "";
                Content := content; Truncated := truncated |}.
Proof.
  rewrite Gist_File_unfold. cbv zeta.
  destruct (exits_128 _); simpl; [by left|right; eauto].
Qed.

Lemma Files_range_entries gist revision filesStr files names w :
  Forall2 (fun name entry =>
             entry = None
             ∨ ∃ content truncated,
                 entry = Some {| Filename := name; OldFilename := "";
                                 Content := content; Truncated := truncated |})
          names files →
  (Files_range G gist revision filesStr files w).1.2 = None →
  Forall2 (fun name entry =>
             entry = None
             ∨ ∃ content truncated,
                 entry = Some {| Filename := name; OldFilename := "";
                                 Content := content; Truncated := truncated |})
          (names ++ filesStr) (Files_range G gist revision filesStr files w).1.1.
Proof.
  revert files names w.
  induction filesStr as [|fileStr rest IH]; intros files names w Hdone.
  - intros _. by rewrite app_nil_r.
  - cbn [Files_range].
    pose proof (Gist_File_entry gist revision fileStr true w) as Hentry.
    destruct (Gist_File G gist revision fileStr true w) as [[file [e|]] w1];
      [discriminate|].
    intros Hnil. rewrite (cons_middle fileStr names rest), app_assoc.
    apply IH; [|done]. apply Forall2_app; [done|]. by constructor.
Qed.

End FilesShape.

(** X2.  [Files] returns no partial result: whenever it returns an error
    the slice it returns is nil, however many files had been read before
    the failure. *)
Theorem Gist_Files_error_means_nil_slice
    (G : GitPackage) (gist : Gist) (revision : string) (w : World G) (e : error) :
  (Gist_Files G gist revision w).1.2 = Some e →
  (Gist_Files G gist revision w).1.1 = [].
Proof.
  unfold Gist_Files.
  destruct (git_GetFilesOfRepository G _ _ _ w) as [[filesStr [e'|]] w1].
  - by destruct (exits_128 (Some e')).
  - apply Files_range_error.
Qed.

Lemma Gist_Files_error_means_nil_slice_witness :
  (Gist_Files Sample2.second_read_fails Sample.alice_gist "HEAD" tt).1.2
  = Some (ExitError 1)
  ∧ (Gist_Files Sample2.second_read_fails Sample.alice_gist "HEAD" tt).1.1 = [].
Proof.
  split; [reflexivity|].
  apply (Gist_Files_error_means_nil_slice Sample2.second_read_fails
           Sample.alice_gist "HEAD" tt (ExitError 1)).
  reflexivity.
Defined.

(** X3.  When the listing succeeds and [Files] returns no error, the slice
    has one entry per listed name, in the order of the listing, and the
    entry of a name is either nil or a [File] with that [Filename] and an
    empty [OldFilename]; an empty listing gives the nil slice. *)
Theorem Gist_Files_one_entry_per_name
    (G : GitPackage) (gist : Gist) (revision : string) (w w1 : World G)
    (filesStr : list string) :
  git_GetFilesOfRepository G (Username (GistUser gist)) (Uuid gist) revision w
  = ((filesStr, None), w1) →
  (Gist_Files G gist revision w).1.2 = None →
  length (Gist_Files G gist revision w).1.1 = length filesStr
  ∧ Forall2 (fun name entry =>
               entry = None
               ∨ ∃ content truncated,
                   entry = Some {| Filename := name; OldFilename := "";
                                   Content := content; Truncated := truncated |})
            filesStr (Gist_Files G gist revision w).1.1.
Proof.
  intros Hlist. unfold Gist_Files. rewrite Hlist. intros Hnil.
  pose proof (Files_range_entries G gist revision filesStr [] [] w1
                (Forall2_nil_2 _ _ _) Hnil) as Hentries.
  split; [|exact Hentries].
  symmetry. by eapply Forall2_length.
Qed.

Lemma Gist_Files_one_entry_per_name_witness :
  (Gist_Files Sample2.second_read_not_found Sample.alice_gist "HEAD" tt).1
  = ([Some {| Filename := "a.txt"; OldFilename := ""; Content := "alpha";
              Truncated := false |}; None], None)
  ∧ length (Gist_Files Sample2.second_read_not_found Sample.alice_gist "HEAD" tt).1.1
    = 2%nat.
Proof.
  split; [reflexivity|].
  apply (Gist_Files_one_entry_per_name Sample2.second_read_not_found Sample.alice_gist
           "HEAD" tt tt ["a.txt"; "b.txt"] eq_refl eq_refl).
Defined.

(** X4.  [Files] reads every file with truncation requested: its result
    and its effect do not depend on what the untruncated read of the
    package would answer. *)
Theorem Gist_Files_reads_truncated_only
    (G : GitPackage)
    (full : string → string → string → string → World G →
            (string * bool * option error) * World G)
    (gist : Gist) (revision : string) (w : World G) :
  Gist_Files (with_full_reads G full) gist revision w = Gist_Files G gist revision w.
Proof.
  unfold Gist_Files. cbn [git_GetFilesOfRepository with_full_reads World].
  destruct (git_GetFilesOfRepository G _ _ _ w) as [[filesStr [e|]] w1]; [done|].
  generalize (@nil (option File)). revert w1.
  induction filesStr as [|fileStr rest IH]; intros w1 files; [done|].
  cbn [Files_range].
  assert (Gist_File (with_full_reads G full) gist revision fileStr true w1
          = Gist_File G gist revision fileStr true w1) as -> by done.
  destruct (Gist_File G gist revision fileStr true w1) as [[file [e|]] w2]; [done|].
  apply IH.
Qed.

(** ** The working clone of a transaction *)

Lemma transaction_steps_tmp_id (gist : Gist) (files : list File) :
  Forall (fun c => call_tmp_id c = Uuid gist) (transaction_steps gist files).
Proof.
  unfold transaction_steps. constructor; [done|]. apply Forall_app. split.
  - unfold write_calls. apply Forall_fmap. by apply Forall_true.
  - by repeat constructor.
Qed.

(** X5.  Every call of an edit transaction addresses the working clone
    keyed by the gist's [Uuid], the first call being the clone of the
    owner's repository into it: the key does not depend on the files, on
    the owner or on the attempt, so two transactions for gists of the same
    [Uuid] work in the same clone. *)
Theorem transaction_clone_is_keyed_by_uuid
    (G : GitPackage) (gist : Gist) (files : list File) (w : World G) :
  let r := Gist_AddAndCommitFiles (Journal G) gist files (w, []) in
  head r.2.2 = Some (CallCloneTmp (Username (GistUser gist)) (Uuid gist) (Uuid gist))
  ∧ Forall (fun c => call_tmp_id c = Uuid gist) r.2.2
  ∧ ∀ (gist' : Gist) (files' : list File) (w' : World G),
      Uuid gist' = Uuid gist →
      Forall (fun c => call_tmp_id c = Uuid gist)
             (Gist_AddAndCommitFiles (Journal G) gist' files' (w', [])).2.2.
Proof.
  assert (∀ g fs w0,
    (Gist_AddAndCommitFiles (Journal G) g fs (w0, [])).2.2
    = executed G (transaction_steps g fs) w0) as Hjournal.
  { intros g fs w0.
    by rewrite (Gist_AddAndCommitFiles_exec (Journal G)), exec_calls_Journal. }
  cbv zeta. rewrite Hjournal. split; [done|]. split.
  - apply executed_Forall, transaction_steps_tmp_id.
  - intros gist' files' w' <-. rewrite Hjournal.
    apply executed_Forall, transaction_steps_tmp_id.
Qed.

Lemma transaction_clone_is_keyed_by_uuid_witness :
  Forall (fun c => call_tmp_id c = "g1")
         (Gist_AddAndCommitFiles (Journal Sample.git) Sample2.alice_gist_retitled
            [Sample.renaming_file] (Sample.staging_fails_disk, [])).2.2.
Proof.
  apply (proj2 (proj2 (transaction_clone_is_keyed_by_uuid Sample.git Sample.alice_gist
                         [Sample.new_file] Sample.one_commit_disk))
               Sample2.alice_gist_retitled [Sample.renaming_file]
               Sample.staging_fails_disk).
  reflexivity.
Defined.

(** X6.  Writing back what [File] returned writes the bytes that were
    read: for a [File] that [File] returned without error, the transaction
    over that one entry is the clone, the write of the content the blob
    subprocess produced (cut at the cap when it was cut) under the name
    that was asked for, the staging, the commit and the push; the
    [Truncated] flag of the entry is not consulted. *)
Theorem write_back_of_a_read_file
    (G : GitPackage) (gist : Gist) (revision filename : string) (truncate : bool)
    (w w1 : World G) (file : File) :
  Gist_File G gist revision filename truncate w = ((Some file, None), w1) →
  ∃ content truncated,
    git_GetFileContent G (Username (GistUser gist)) (Uuid gist) revision filename truncate w
    = ((content, truncated, None), w1)
    ∧ Truncated file = truncated
    ∧ ∀ (gist' : Gist) (w' : World G),
        Gist_AddAndCommitFiles G gist' [file] w'
        = exec_calls G
            [CallCloneTmp (Username (GistUser gist')) (Uuid gist') (Uuid gist');
             CallSetFileContent (Uuid gist') filename content;
             CallAddAll (Uuid gist'); CallCommit (Uuid gist'); CallPush (Uuid gist')] w'.
Proof.
  unfold Gist_File.
  destruct (git_GetFileContent G _ _ _ _ _ w) as [[[content truncated] err] w2].
  destruct (exits_128 err); [discriminate|].
  intros [= <- -> ->]. exists content, truncated.
  split; [done|]. split; [done|].
  intros gist' w'. by rewrite Gist_AddAndCommitFiles_exec.
Qed.

Lemma write_back_of_a_read_file_witness :
  ∃ content truncated,
    git_GetFileContent Sample.git "alice" "g1" "HEAD" "old.txt" true Sample.one_commit_disk
    = ((content, truncated, None), Sample.one_commit_disk)
    ∧ content = "hell" ∧ truncated = true
    ∧ (Gist_AddAndCommitFiles (Journal Sample.git) Sample.alice_gist
         [{| Filename := "old.txt"; OldFilename := ""; Content := "hell";
             Truncated := true |}] (Sample.one_commit_disk, [])).2.2
      = [CallCloneTmp "alice" "g1" "g1"; CallSetFileContent "g1" "old.txt" "hell";
         CallAddAll "g1"; CallCommit "g1"; CallPush "g1"].
Proof.
  destruct (write_back_of_a_read_file Sample.git Sample.alice_gist "HEAD" "old.txt" true
              Sample.one_commit_disk Sample.one_commit_disk
              {| Filename := "old.txt"; OldFilename := ""; Content := "hell";
                 Truncated := true |} eq_refl)
    as (content & truncated & Hread & Htruncated & _).
  exists content, truncated. split; [exact Hread|].
  vm_compute in Hread. injection Hread as <- <-.
  repeat split; reflexivity.
Defined.

(** ** The form and the gist *)

(** X7.  Applying a form to an existing gist changes its title, its
    description and its privacy and nothing else: the gist keeps its
    identifiers, owner and counters, the same users can write it, and the
    repository methods address the same repository as before. *)
Theorem ToExistingGist_keeps_identity
    (dto : DTO.GistDTO) (gist : Full.Gist) (user : option Full.User)
    (G : GitPackage) (revision filename : string) (truncate : bool)
    (files : list File) (w : World G) :
  let gist' := DTO.ToExistingGist dto gist in
  (Full.Title gist', Full.Description gist', Full.Private gist')
  = (DTO.Title dto, DTO.Description dto, DTO.Private dto)
  ∧ (Full.GistID gist', Full.Uuid gist', Full.UserID gist', Full.GistUser gist',
     Full.ForkedID gist', Full.Forked gist')
    = (Full.GistID gist, Full.Uuid gist, Full.UserID gist, Full.GistUser gist,
       Full.ForkedID gist, Full.Forked gist)
  ∧ (Full.NbFiles gist', Full.NbLikes gist', Full.NbForks gist', Full.Likes gist',
     Full.CreatedAt gist', Full.UpdatedAt gist', Full.Preview gist',
     Full.PreviewFilename gist')
    = (Full.NbFiles gist, Full.NbLikes gist, Full.NbForks gist, Full.Likes gist,
       Full.CreatedAt gist, Full.UpdatedAt gist, Full.Preview gist,
       Full.PreviewFilename gist)
  ∧ Full.CanWrite gist' user = Full.CanWrite gist user
  ∧ Gist_Files G (repository_view gist') revision w
    = Gist_Files G (repository_view gist) revision w
  ∧ Gist_File G (repository_view gist') revision filename truncate w
    = Gist_File G (repository_view gist) revision filename truncate w
  ∧ Gist_AddAndCommitFiles G (repository_view gist') files w
    = Gist_AddAndCommitFiles G (repository_view gist) files w.
Proof.
  cbv zeta. split; [done|]. split; [done|]. split; [done|]. split; [done|].
  split; [|split].
  - unfold Gist_Files. simpl.
    destruct (git_GetFilesOfRepository G _ _ _ w) as [[filesStr [e|]] w1]; [done|].
    by apply Files_range_identity.
  - by apply Gist_File_identity.
  - unfold Gist_AddAndCommitFiles. simpl.
    destruct (git_CloneTmp G _ _ _ w) as [[e|] w1]; [done|].
    by rewrite (SetFiles_range_identity G _ (repository_view gist)).
Qed.

(** X8.  A form applied over another leaves no trace of the first; a form
    applied to the gist made from another form gives the gist made from
    the form applied; the files of a form play no part in either.  The
    gist made from a form has no owner yet: its [UserID] is zero, and it
    can be written by a user only if that user's [ID] is zero, and by
    nobody when no user is logged in. *)
Theorem forms_compose
    (dto dto' : DTO.GistDTO) (gist : Full.Gist) (files : list File)
    (user : option Full.User) :
  let without_files :=
    {| DTO.Title := DTO.Title dto; DTO.Description := DTO.Description dto;
       DTO.Private := DTO.Private dto; DTO.Files := files |} in
  DTO.ToExistingGist dto (DTO.ToExistingGist dto' gist) = DTO.ToExistingGist dto gist
  ∧ DTO.ToExistingGist dto (DTO.ToGist dto') = DTO.ToGist dto
  ∧ DTO.ToGist dto = DTO.ToExistingGist dto Full.zero
  ∧ DTO.ToGist without_files = DTO.ToGist dto
  ∧ DTO.ToExistingGist without_files gist = DTO.ToExistingGist dto gist
  ∧ (Full.CanWrite (DTO.ToGist dto) user = true
     ↔ ∃ u, user = Some u ∧ Full.ID u = 0%N).
Proof.
  cbv zeta. repeat split; try reflexivity.
  - destruct user as [u|]; [|discriminate]. unfold Full.CanWrite.
    change (Full.UserID (DTO.ToGist dto)) with 0%N.
    intros H%N.eqb_eq. eauto.
  - intros (u & -> & Hu). unfold Full.CanWrite. rewrite Hu. reflexivity.
Qed.

Lemma forms_compose_witness :
  Full.CanWrite (DTO.ToGist Sample2.form) (Some {| Full.ID := 0; Full.Username := "" |})
  = true
  ∧ Full.CanWrite (DTO.ToGist Sample2.form) (Some Sample2.alice) = false.
Proof.
  split; [|reflexivity].
  apply (proj2 (proj2 (proj2 (proj2 (proj2
           (forms_compose Sample2.form Sample2.form Sample2.alice_row []
              (Some {| Full.ID := 0; Full.Username := "" |}))))))).
  by eexists.
Defined.

(** ** Validated forms *)

Lemma forallb_true_Forall {A : Type} (p : A → bool) (l : list A) :
  forallb p l = true → Forall (fun x => p x = true) l.
Proof.
  induction l as [|x l IH]; simpl; [by constructor|].
  rewrite andb_true_iff. intros [Hx Hl]. constructor; [done|by apply IH].
Qed.

Lemma File_valid_write (gistTmpId : string) (file : File) :
  File_valid file = true →
  well_formed_write gistTmpId
    (CallSetFileContent gistTmpId (Filename file) (Content file)).
Proof.
  unfold File_valid. rewrite !andb_true_iff.
  intros ((((((Hs1 & Hb1) & Hm1) & Hs2) & Hb2) & Hm2) & Hreq).
  pose proof (proj1 (excludes_char _ _) Hs1) as Hslash.
  apply Nat.leb_le in Hm1.
  unfold validate.required in Hreq. apply negb_true_iff, String.eqb_neq in Hreq.
  simpl. split; [done|]. split; [by apply Split_single|done].
Qed.

(** X9.  A form that passes validation has at least one file, a title of
    at most 50 runes and a description of at most 150; and in the edit
    transaction over its files every write that is made is made in the
    gist's clone, under a name that is a single path component of at most
    50 runes, with a content that is not empty. *)
Theorem valid_form_transaction
    (G : GitPackage) (dto : DTO.GistDTO) (gist : Gist) (w : World G) :
  DTO.valid dto = true →
  DTO.Files dto ≠ []
  ∧ (utf8.RuneCountInString (Full.Title (DTO.ToGist dto)) ≤ 50)%nat
  ∧ (utf8.RuneCountInString (Full.Description (DTO.ToGist dto)) ≤ 150)%nat
  ∧ Forall (fun file => File_valid file = true) (DTO.Files dto)
  ∧ Forall (well_formed_write (Uuid gist))
           (Gist_AddAndCommitFiles (Journal G) gist (DTO.Files dto) (w, [])).2.2.
Proof.
  unfold DTO.valid. rewrite !andb_true_iff.
  intros (((Htitle & Hdescription) & Hmin) & Hfiles).
  apply Nat.leb_le in Htitle, Hdescription, Hmin.
  apply forallb_true_Forall in Hfiles.
  split; [by destruct (DTO.Files dto); [simpl in Hmin; lia|]|].
  split; [done|]. split; [done|]. split; [done|].
  rewrite (Gist_AddAndCommitFiles_exec (Journal G)), exec_calls_Journal.
  cbn [fst snd app].
  apply executed_Forall. unfold transaction_steps.
  constructor; [done|]. apply Forall_app. split.
  - unfold write_calls. apply Forall_fmap.
    eapply Forall_impl; [exact Hfiles|]. intros file Hfile. by apply File_valid_write.
  - by repeat constructor.
Qed.

Lemma valid_form_transaction_witness :
  DTO.Files Sample2.form ≠ []
  ∧ Forall (well_formed_write "g1")
           (Gist_AddAndCommitFiles (Journal Sample.git) Sample.alice_gist
              (DTO.Files Sample2.form) (Sample.one_commit_disk, [])).2.2.
Proof.
  destruct (valid_form_transaction Sample.git Sample2.form Sample.alice_gist
              Sample.one_commit_disk eq_refl) as (Hfiles & _ & _ & _ & Hwrites).
  split; [exact Hfiles|exact Hwrites].
Defined.

(** ** Runes and bytes *)

Lemma utf8_width_bounds (c : N) (rest : list N) :
  (1 ≤ utf8.width c rest ≤ 4)%nat.
Proof.
  unfold utf8.width, utf8.first.
  repeat (case_match; try lia).
Qed.

Lemma utf8_count_bounds (skip : nat) (bs : list N) :
  (utf8.count skip bs ≤ length bs)%nat
  ∧ (length bs ≤ skip + 4 * utf8.count skip bs)%nat.
Proof.
  revert skip. induction bs as [|c rest IH]; intros skip; simpl; [lia|].
  destruct skip as [|k].
  - pose proof (utf8_width_bounds c rest) as Hwidth.
    destruct (IH (utf8.width c rest - 1)%nat) as [Hle Hge]. lia.
  - destruct (IH k) as [Hle Hge]. lia.
Qed.

Lemma utf8_bytes_length (s : string) :
  length (utf8.bytes s) = String.length s.
Proof.
  unfold utf8.bytes. rewrite length_fmap.
  induction s as [|c s IH]; simpl; [done|by rewrite IH].
Qed.

Lemma RuneCountInString_bounds (s : string) :
  (utf8.RuneCountInString s ≤ String.length s)%nat
  ∧ (String.length s ≤ 4 * utf8.RuneCountInString s)%nat.
Proof.
  unfold utf8.RuneCountInString.
  destruct (utf8_count_bounds 0 (utf8.bytes s)) as [Hle Hge].
  rewrite utf8_bytes_length in Hle, Hge. lia.
Qed.

(** X10.  The caps of the tags count runes, and a rune takes at most four
    bytes: a validated [File] has names of at most 200 bytes, and a
    validated form a title of at most 200 bytes and a description of at
    most 600. *)
Theorem validated_strings_byte_bounds (dto : DTO.GistDTO) :
  DTO.valid dto = true →
  (String.length (DTO.Title dto) ≤ 200)%nat
  ∧ (String.length (DTO.Description dto) ≤ 600)%nat
  ∧ Forall (fun file =>
              (String.length (Filename file) ≤ 200)%nat
              ∧ (String.length (OldFilename file) ≤ 200)%nat)
           (DTO.Files dto).
Proof.
  unfold DTO.valid. rewrite !andb_true_iff.
  intros (((Htitle & Hdescription) & _) & Hfiles).
  apply Nat.leb_le in Htitle, Hdescription.
  apply forallb_true_Forall in Hfiles.
  pose proof (RuneCountInString_bounds (DTO.Title dto)) as [_ Ht].
  pose proof (RuneCountInString_bounds (DTO.Description dto)) as [_ Hd].
  split; [lia|]. split; [lia|].
  eapply Forall_impl; [exact Hfiles|]. intros file. unfold File_valid.
  rewrite !andb_true_iff.
  intros ((((((_ & _) & Hm1) & _) & _) & Hm2) & _).
  apply Nat.leb_le in Hm1, Hm2.
  pose proof (RuneCountInString_bounds (Filename file)) as [_ H1].
  pose proof (RuneCountInString_bounds (OldFilename file)) as [_ H2].
  lia.
Qed.

(** The bound is reached: fifty runes of four bytes make a valid name of
    200 bytes. *)
Lemma validated_strings_byte_bounds_witness :
  let name := "𝄞𝄞𝄞𝄞𝄞𝄞𝄞𝄞𝄞𝄞𝄞𝄞𝄞𝄞𝄞𝄞𝄞𝄞𝄞𝄞𝄞𝄞𝄞𝄞𝄞𝄞𝄞𝄞𝄞𝄞𝄞𝄞𝄞𝄞𝄞𝄞𝄞𝄞𝄞𝄞𝄞𝄞𝄞𝄞𝄞𝄞𝄞𝄞𝄞𝄞" in
  let dto := {| DTO.Title := name; DTO.Description := "";  DTO.Private := false;
                DTO.Files := [{| Filename := name; OldFilename := ""; Content := "x";
                                 Truncated := false |}] |} in
  String.length name = 200%nat
  ∧ Forall (fun file =>
              (String.length (Filename file) ≤ 200)%nat
              ∧ (String.length (OldFilename file) ≤ 200)%nat)
           (DTO.Files dto).
Proof.
  cbv zeta. split; [reflexivity|].
  refine (proj2 (proj2 (validated_strings_byte_bounds _ _))).
  vm_compute. reflexivity.
Defined.

(** X11.  A [File] whose content is not empty and whose two names hold no
    slash and no backslash and are at most 50 bytes long passes
    validation, whatever the bytes of the names are: an empty name, the
    names [.] and [..], and names that are not well-formed UTF-8 are all
    accepted. *)
Theorem short_plain_names_are_valid (f : File) :
  (∀ m, String.get m (Filename f) ≠ Some "/"%char
        ∧ String.get m (Filename f) ≠ Some "\"%char) →
  (∀ m, String.get m (OldFilename f) ≠ Some "/"%char
        ∧ String.get m (OldFilename f) ≠ Some "\"%char) →
  (String.length (Filename f) ≤ 50)%nat →
  (String.length (OldFilename f) ≤ 50)%nat →
  Content f ≠ "" →
  File_valid f = true.
Proof.
  intros Hname Hold Hlen Hlenold Hcontent.
  pose proof (RuneCountInString_bounds (Filename f)) as [H1 _].
  pose proof (RuneCountInString_bounds (OldFilename f)) as [H2 _].
  unfold File_valid. rewrite !andb_true_iff. repeat split.
  - apply excludes_char. intros m. apply Hname.
  - apply excludes_char. intros m. apply Hname.
  - apply Nat.leb_le. lia.
  - apply excludes_char. intros m. apply Hold.
  - apply excludes_char. intros m. apply Hold.
  - apply Nat.leb_le. lia.
  - unfold validate.required. by apply negb_true_iff, String.eqb_neq.
Qed.

Lemma short_plain_names_are_valid_witness :
  File_valid {| Filename := ""; OldFilename := "."; Content := "x"; Truncated := false |}
  = true.
Proof.
  apply short_plain_names_are_valid; simpl.
  - intros m. by destruct m.
  - intros [|[|m]]; simpl; split; congruence.
  - lia.
  - lia.
  - discriminate.
Defined.

(** ** [Files] in terms of [File] *)

Lemma Files_range_map (G : GitPackage) (gist : Gist) (revision : string)
    (filesStr : list string) (files : list (option File)) (w : World G) :
  Forall (fun name =>
            (Gist_File G gist revision name true w).2 = w
            ∧ (Gist_File G gist revision name true w).1.2 = None) filesStr →
  Files_range G gist revision filesStr files w
  = ((files ++ ((fun name => (Gist_File G gist revision name true w).1.1) <$> filesStr),
      None), w).
Proof.
  revert files. induction filesStr as [|fileStr rest IH]; intros files Hreads.
  - simpl. by rewrite app_nil_r.
  - inversion_clear Hreads as [|? ? [Hworld Herr] Hrest]. cbn [Files_range fmap list_fmap].
    destruct (Gist_File G gist revision fileStr true w) as [[file err] w1].
    simpl in Hworld, Herr. subst w1 err.
    rewrite IH by done. simpl. by rewrite <- app_assoc.
Qed.

(** X12.  When the listing succeeds and the reads of the listed files
    neither fail nor change the world, [Files] returns, for the names of
    the listing in order, what [File] returns for each name with
    truncation requested, and a nil error. *)
Theorem Gist_Files_is_File_over_the_listing
    (G : GitPackage) (gist : Gist) (revision : string) (w w1 : World G)
    (filesStr : list string) :
  git_GetFilesOfRepository G (Username (GistUser gist)) (Uuid gist) revision w
  = ((filesStr, None), w1) →
  Forall (fun name =>
            (Gist_File G gist revision name true w1).2 = w1
            ∧ (Gist_File G gist revision name true w1).1.2 = None) filesStr →
  Gist_Files G gist revision w
  = (((fun name => (Gist_File G gist revision name true w1).1.1) <$> filesStr, None), w1).
Proof.
  intros Hlist Hreads. unfold Gist_Files. rewrite Hlist.
  by rewrite Files_range_map.
Qed.

Lemma Gist_Files_is_File_over_the_listing_witness :
  Gist_Files Sample.git Sample.alice_gist "HEAD" Sample.one_commit_disk
  = (([ (Gist_File Sample.git Sample.alice_gist "HEAD" "old.txt" true
           Sample.one_commit_disk).1.1 ], None), Sample.one_commit_disk).
Proof.
  apply (Gist_Files_is_File_over_the_listing Sample.git Sample.alice_gist "HEAD"
           Sample.one_commit_disk Sample.one_commit_disk ["old.txt"]).
  - reflexivity.
  - repeat constructor.
Defined.
